(** * Hydrogen-bond decomposition of water configurations

    A shallow embedding of [water/analysis/hbond_decomposition.py]:
    [build_water_molecules], [find_hydrogen_bonds],
    [calculate_average_hbonds], [analyze_bond_counts] and the body of
    [main] that follows the structure reader.

    Conventions of the embedding.
    - Python integers are [Z]; the result of [len] is a [nat].
    - A Python float that the program only compares (the distances and
      angles returned by the ASE [Atoms] object, the cut-offs) is a
      [pyfloat]: a finite value, which is a rational number, an infinity
      or NaN.  The comparison [<] on such values is exact.
    - A float that the program computes by true division of integers
      ([/]) is modelled by the exact rational quotient (a [Q]): rounding
      to binary64 is not modelled.
    - A raised exception is a value [Raise e] of the [result] monad.
    - Dictionaries, [defaultdict]s and [Counter]s are [gmap]s, the Python
      [set] is a [gset]. *)

From Stdlib Require Import QArith Ascii.
From stdpp Require Import gmap strings list fin_maps pretty sorting.

Local Open Scope Z_scope.

(** ** Exceptions *)

Inductive pyexn : Set :=
| AssertionError
| ZeroDivisionError.

Inductive result (A : Type) : Type :=
| Ok (a : A)
| Raise (e : pyexn).
Arguments Ok {A} a.
Arguments Raise {A} e.

Definition bind {A B : Type} (r : result A) (k : A → result B) : result B :=
  match r with
  | Ok a => k a
  | Raise e => Raise e
  end.

Notation "x ←! r ;; k" := (bind r (λ x, k))
  (at level 100, r at next level, k at level 200, right associativity,
   format "x  ←!  r  ;;  '/' k").
Notation "r ;;! k" := (bind r (λ _, k))
  (at level 100, k at level 200, right associativity).

(** [assert cond] *)
Definition py_assert (cond : bool) : result unit :=
  if cond then Ok tt else Raise AssertionError.

(** ** Floats that are only compared *)

Inductive pyfloat : Set :=
| Finite (q : Q)
| PosInf
| NegInf
| NaN.

(** The rational order as a boolean: [p < q]. *)
Definition Qltb (p q : Q) : bool :=
  Qnum p * Zpos (Qden q) <? Qnum q * Zpos (Qden p).

(** The float comparison [a < b]: false as soon as one side is NaN. *)
Definition flt (a b : pyfloat) : bool :=
  match a, b with
  | NaN, _ | _, NaN => false
  | _, NegInf => false
  | NegInf, _ => true
  | PosInf, _ => false
  | Finite _, PosInf => true
  | Finite p, Finite q => Qltb p q
  end.

(** ** The ASE [Atoms] collaborator

    Only what the analysis calls: [len(atoms)],
    [atoms.get_distance(a0, a1, mic)] and
    [atoms.get_angle(a0, a1, a2, mic)] (in degrees, vertex at [a1]). *)

Record Atoms : Type := {
  len : nat;
  get_distance : Z → Z → bool → pyfloat;
  get_angle : Z → Z → Z → bool → pyfloat
}.

(** ** Water molecules: the dictionary [{'O': base, 'H': [base+1, base+2]}] *)

Record water : Set := { O : Z; H : list Z }.

(** A hydrogen bond: [(acceptor_O, donor_O, h)]. *)
Abbreviation hbond := (Z * Z * Z)%type.

(** The sanity threshold [1.5] of the two assertions. *)
Definition OH_threshold : pyfloat := Finite (3 # 2).

(** ** [build_water_molecules] *)

(** The body of [for i in range(n_waters)], with the list built so far. *)
Fixpoint build_loop (atoms : Atoms) (range : list nat) (water_mols : list water)
  : result (list water) :=
  match range with
  | [] => Ok water_mols
  | i :: range' =>
      let base := 3 * Z.of_nat i in
      let water_mols := water_mols ++ [ {| O := base; H := [base + 1; base + 2] |} ] in
      py_assert (flt (get_distance atoms base (base + 1) false) OH_threshold) ;;!
      py_assert (flt (get_distance atoms base (base + 2) false) OH_threshold) ;;!
      build_loop atoms range' water_mols
  end.

Definition build_water_molecules (atoms : Atoms) : result (list water) :=
  let n_atoms := len atoms in
  let n_waters := (n_atoms / 3)%nat in
  build_loop atoms (seq 0 n_waters) [].

(** ** [find_hydrogen_bonds] *)

(** [enumerate(l)], counting from [start]. *)
Fixpoint enumerate_from {A : Type} (start : nat) (l : list A) : list (nat * A) :=
  match l with
  | [] => []
  | x :: l' => (start, x) :: enumerate_from (S start) l'
  end.

Definition enumerate {A : Type} (l : list A) : list (nat * A) := enumerate_from 0 l.

(** [for h in donor['H']], with the bond list built so far. *)
Fixpoint hydrogen_loop (atoms : Atoms) (angle_cutoff : pyfloat)
    (acceptor_O donor_O : Z) (hs : list Z) (hbonds : list hbond) : list hbond :=
  match hs with
  | [] => hbonds
  | h :: hs' =>
      let theta := get_angle atoms acceptor_O donor_O h true in
      let hbonds :=
        if flt theta angle_cutoff then hbonds ++ [(acceptor_O, donor_O, h)] else hbonds in
      hydrogen_loop atoms angle_cutoff acceptor_O donor_O hs' hbonds
  end.

(** [for j, acceptor in enumerate(water_mols)], for one donor. *)
Fixpoint acceptor_loop (atoms : Atoms) (distance_cutoff angle_cutoff : pyfloat)
    (i : nat) (donor : water) (acceptors : list (nat * water)) (hbonds : list hbond)
  : list hbond :=
  match acceptors with
  | [] => hbonds
  | (j, acceptor) :: acceptors' =>
      if (i =? j)%nat then
        acceptor_loop atoms distance_cutoff angle_cutoff i donor acceptors' hbonds
      else
        let donor_O := O donor in
        let acceptor_O := O acceptor in
        let OO_dist := get_distance atoms donor_O acceptor_O true in
        let hbonds :=
          if flt OO_dist distance_cutoff then
            hydrogen_loop atoms angle_cutoff acceptor_O donor_O (H donor) hbonds
          else hbonds in
        acceptor_loop atoms distance_cutoff angle_cutoff i donor acceptors' hbonds
  end.

(** [for i, donor in enumerate(water_mols)]. *)
Fixpoint donor_loop (atoms : Atoms) (distance_cutoff angle_cutoff : pyfloat)
    (water_mols : list water) (donors : list (nat * water)) (hbonds : list hbond)
  : list hbond :=
  match donors with
  | [] => hbonds
  | (i, donor) :: donors' =>
      let hbonds :=
        acceptor_loop atoms distance_cutoff angle_cutoff i donor (enumerate water_mols) hbonds in
      donor_loop atoms distance_cutoff angle_cutoff water_mols donors' hbonds
  end.

Definition find_hydrogen_bonds (atoms : Atoms) (water_mols : list water)
    (distance_cutoff angle_cutoff : pyfloat) : list hbond :=
  donor_loop atoms distance_cutoff angle_cutoff water_mols (enumerate water_mols) [].

(** The default arguments [distance_cutoff=3.5, angle_cutoff=30]. *)
Definition default_distance_cutoff : pyfloat := Finite (7 # 2).
Definition default_angle_cutoff : pyfloat := Finite (30 # 1).

Definition find_hydrogen_bonds_default (atoms : Atoms) (water_mols : list water)
  : list hbond :=
  find_hydrogen_bonds atoms water_mols default_distance_cutoff default_angle_cutoff.

(** ** Integer true division and numbers returned to the caller *)

(** A value that is either the integer literal of an early [return] or
    the float of a true division (as its exact rational value). *)
Inductive pynum : Set :=
| PyInt (z : Z)
| PyFloat (q : Q).

Definition pynum_val (x : pynum) : Q :=
  match x with
  | PyInt z => inject_Z z
  | PyFloat q => q
  end.

(** [a / b] on integers. *)
Definition py_truediv (a b : Z) : result Q :=
  if b =? 0 then Raise ZeroDivisionError else Ok (inject_Z a / inject_Z b)%Q.

(** ** [calculate_average_hbonds] *)

(** [np.unique]: the sorted distinct elements. *)
Definition np_unique (l : list Z) : list Z := merge_sort Z.le (remove_dups l).

(** [hbond_array[:, 0]] and [hbond_array[:, 1]]. *)
Definition column0 (hbonds : list hbond) : list Z := (λ b, b.1.1) <$> hbonds.
Definition column1 (hbonds : list hbond) : list Z := (λ b, b.1.2) <$> hbonds.

Definition calculate_average_hbonds (hbonds : list hbond) : result pynum :=
  match hbonds with
  | [] => Ok (PyInt 0)
  | _ :: _ =>
      let unique_oxygens := np_unique (column0 hbonds ++ column1 hbonds) in
      let num_bonds := length hbonds in
      avg_hbonds ←! py_truediv (2 * Z.of_nat num_bonds) (Z.of_nat (length unique_oxygens)) ;;
      Ok (PyFloat avg_hbonds)
  end.

(** ** [analyze_bond_counts] *)

(** The value [{'accepting': n, 'donating': m}]. *)
Record role_counts : Set := { accepting : Z; donating : Z }.

(** [d[k] += 1] on a [defaultdict(int)] or a [Counter]. *)
Definition incr {K : Type} `{Countable K} (k : K) (d : gmap K Z) : gmap K Z :=
  <[k := default 0 (d !! k) + 1]> d.

(** [d.get(k, 0)] *)
Definition get0 {K : Type} `{Countable K} (d : gmap K Z) (k : K) : Z :=
  default 0 (d !! k).

(** The first loop: one step per bond, on the pair
    [(acceptor_counts, donor_counts)]. *)
Definition tally_step (st : gmap Z Z * gmap Z Z) (b : hbond) : gmap Z Z * gmap Z Z :=
  let '(acceptor, donor, _) := b in
  (incr acceptor st.1, incr donor st.2).

Definition tally (hbonds : list hbond) : gmap Z Z * gmap Z Z :=
  foldl tally_step (∅, ∅) hbonds.

(** The second loop, over the set [all_oxygens]. *)
Definition role_step (acceptor_counts donor_counts : gmap Z Z)
    (oxygen_bond_counts : gmap Z role_counts) (oxygen : Z) : gmap Z role_counts :=
  <[oxygen := {| accepting := get0 acceptor_counts oxygen;
                 donating := get0 donor_counts oxygen |}]> oxygen_bond_counts.

(** The label [f"A{counts['accepting']}D{counts['donating']}"]. *)
Definition bond_type (counts : role_counts) : string :=
  "A" +:+ pretty (accepting counts) +:+ "D" +:+ pretty (donating counts).

(** The third loop, over [oxygen_bond_counts.items()]. *)
Definition type_step (type_counts : gmap string Z) (item : Z * role_counts)
  : gmap string Z :=
  incr (bond_type item.2) type_counts.

(** The dictionary comprehension over [type_counts.items()]: the entries
    are evaluated in order, each one computing
    [(count / total_oxygens) * 100] and storing it under its label. *)
Fixpoint percent_items (total_oxygens : Z) (items : list (string * Z))
    (percentages : gmap string Q) : result (gmap string Q) :=
  match items with
  | [] => Ok percentages
  | (label, count) :: items' =>
      ratio ←! py_truediv count total_oxygens ;;
      percent_items total_oxygens items' (<[label := (ratio * inject_Z 100)%Q]> percentages)
  end.

Definition analyze_bond_counts (hbonds : list hbond)
  : result (gmap Z role_counts * gmap string Z * gmap string Q) :=
  let '(acceptor_counts, donor_counts) := tally hbonds in
  let all_oxygens : gset Z := dom acceptor_counts ∪ dom donor_counts in
  let oxygen_bond_counts :=
    foldl (role_step acceptor_counts donor_counts) ∅ (elements all_oxygens) in
  let type_counts := foldl type_step ∅ (map_to_list oxygen_bond_counts) in
  let total_oxygens := Z.of_nat (size oxygen_bond_counts) in
  percentages ←! percent_items total_oxygens (map_to_list type_counts) ∅ ;;
  Ok (oxygen_bond_counts, type_counts, percentages).

(** ** [main], after [ase.io.read] has produced the [Atoms] object *)

Record analysis : Type := {
  average_hbonds : pynum;
  oxygen_bond_counts : gmap Z role_counts;
  type_counts : gmap string Z;
  percentages : gmap string Q
}.

Definition main (atoms : Atoms) : result analysis :=
  water_mols ←! build_water_molecules atoms ;;
  let hbonds := find_hydrogen_bonds_default atoms water_mols in
  avg_hbonds ←! calculate_average_hbonds hbonds ;;
  classified ←! analyze_bond_counts hbonds ;;
  let '(obc, tc, pct) := classified in
  Ok {| average_hbonds := avg_hbonds;
        oxygen_bond_counts := obc;
        type_counts := tc;
        percentages := pct |}.

(** * Vocabulary of the statements

    The definitions below are not code of the program: they name what
    the specification talks about, so that the theorems can compare the
    program with it. *)

(** Two floats hold the same value ([a == b]): NaN equals nothing, and
    two finite values are compared as rationals. *)
Definition feq (a b : pyfloat) : bool :=
  match a, b with
  | Finite p, Finite q => Qeq_bool p q
  | PosInf, PosInf | NegInf, NegInf => true
  | _, _ => false
  end.

(** Molecule [i] of the fixed-stride grouping: atoms [3i, 3i+1, 3i+2]
    as O, H, H. *)
Definition water_at (i : nat) : water :=
  {| O := 3 * Z.of_nat i; H := [3 * Z.of_nat i + 1; 3 * Z.of_nat i + 2] |}.

(** Both O-H distances of triplet [i] are below the sanity threshold. *)
Definition triplet_ok (atoms : Atoms) (i : nat) : bool :=
  flt (get_distance atoms (3 * Z.of_nat i) (3 * Z.of_nat i + 1) false) OH_threshold
  && flt (get_distance atoms (3 * Z.of_nat i) (3 * Z.of_nat i + 2) false) OH_threshold.

(** What the iteration for the ordered pair (donor at position [i],
    acceptor at position [j]) contributes, in the words of the
    specification: nothing for a self-pair; nothing unless the O-O
    distance is below the distance cut-off; otherwise one bond
    [(acceptor_O, donor_O, h)] for each hydrogen [h] of the donor, in
    order, whose angle is below the angle cut-off. *)
Definition emitted_by_pair (atoms : Atoms) (distance_cutoff angle_cutoff : pyfloat)
    (i : nat) (donor : water) (j : nat) (acceptor : water) : list hbond :=
  if decide (i = j) then []
  else if flt (get_distance atoms (O donor) (O acceptor) true) distance_cutoff then
    (λ h, (O acceptor, O donor, h)) <$>
      filter (λ h, flt (get_angle atoms (O acceptor) (O donor) h true) angle_cutoff = true)
             (H donor)
  else [].

(** The contributions of all ordered pairs, donors outermost, acceptors
    next, hydrogens innermost. *)
Definition bonds_in_iteration_order (atoms : Atoms) (water_mols : list water)
    (distance_cutoff angle_cutoff : pyfloat) : list hbond :=
  '(i, donor) ← enumerate water_mols;
  '(j, acceptor) ← enumerate water_mols;
  emitted_by_pair atoms distance_cutoff angle_cutoff i donor j acceptor.

(** The distinct oxygens that appear as acceptor or as donor of some
    bond, in the words of the specification: the union, over the bonds,
    of the pair [{acceptor, donor}]. *)
Definition participating_oxygens (hbonds : list hbond) : gset Z :=
  ⋃ ((λ b : hbond, {[ b.1.1; b.1.2 ]}) <$> hbonds).

(** The percentage [(count / total_oxygens) * 100] of one histogram
    entry, as an exact rational. *)
Definition percent_of (total_oxygens count : Z) : Q :=
  (inject_Z count / inject_Z total_oxygens * inject_Z 100)%Q.

(** [sum(d.values())] for an integer-valued and a float-valued dictionary. *)
Definition sum_values {K : Type} `{Countable K} (d : gmap K Z) : Z :=
  foldr Z.add 0 ((map_to_list d).*2).

Definition sum_valuesQ {K : Type} `{Countable K} (d : gmap K Q) : Q :=
  foldr Qplus 0%Q ((map_to_list d).*2).

(** * Concrete configurations used to exercise the statements *)

(** The chain of four molecules of the specification's concrete
    scenario: every O-H bond is 0.96 long, the oxygens of molecules 0
    and 1 are 2.8 apart and all other oxygens 6 apart; the angle
    O1-O0-H(1) is 10 degrees and every other angle 100 degrees. *)
Definition chain_distance (a b : Z) (mic : bool) : pyfloat :=
  if mic then
    if bool_decide ((a = 0 ∧ b = 3) ∨ (a = 3 ∧ b = 0)) then Finite (14 # 5)
    else Finite (6 # 1)
  else Finite (24 # 25).

Definition chain_angle (a b c : Z) (mic : bool) : pyfloat :=
  if bool_decide (a = 3 ∧ b = 0 ∧ c = 1) then Finite (10 # 1) else Finite (100 # 1).

Definition chain : Atoms :=
  {| len := 12; get_distance := chain_distance; get_angle := chain_angle |}.

Definition chain_mols : list water := water_at <$> seq 0 4.

(** Two molecules whose last O-H bond is stretched to 2.0. *)
Definition stretched : Atoms :=
  {| len := 6;
     get_distance := λ a b mic,
       if bool_decide (a = 3 ∧ b = 5) then Finite (2 # 1) else Finite (24 # 25);
     get_angle := λ _ _ _ _, Finite (100 # 1) |}.

(** Seven atoms: two molecules and one trailing atom. *)
Definition seven : Atoms :=
  {| len := 7;
     get_distance := λ a b mic, if mic then Finite (6 # 1) else Finite (24 # 25);
     get_angle := λ _ _ _ _, Finite (100 # 1) |}.

(** One isolated molecule. *)
Definition isolated : Atoms :=
  {| len := 3;
     get_distance := λ _ _ _, Finite (24 # 25);
     get_angle := λ _ _ _ _, Finite (0 # 1) |}.

(** Three bonds among three oxygens: 0 and 3 donate to each other and 3
    also donates to 6. *)
Definition three_bonds : list hbond := [(3, 0, 1); (0, 3, 4); (6, 3, 5)].

(** Two molecules whose oxygens are exactly 3.5 apart, every angle
    being 10 degrees; and two molecules 2.8 apart whose angles are all
    exactly 30 degrees. *)
Definition at_distance_cutoff : Atoms :=
  {| len := 6;
     get_distance := λ a b mic, if mic then Finite (35 # 10) else Finite (24 # 25);
     get_angle := λ _ _ _ _, Finite (10 # 1) |}.

Definition at_angle_cutoff : Atoms :=
  {| len := 6;
     get_distance := λ a b mic, if mic then Finite (14 # 5) else Finite (24 # 25);
     get_angle := λ _ _ _ _, Finite (30 # 1) |}.

(** The same two molecules just inside both cut-offs. *)
Definition inside_cutoffs : Atoms :=
  {| len := 6;
     get_distance := λ a b mic, if mic then Finite (349 # 100) else Finite (24 # 25);
     get_angle := λ _ _ _ _, Finite (299 # 10) |}.

(** Eight atoms: the two molecules of [seven] followed by two trailing
    atoms that are far from everything. *)
Definition eight : Atoms :=
  {| len := 8;
     get_distance := λ a b mic,
       if bool_decide (6 ≤ a ∨ 6 ≤ b) then Finite (99 # 1)
       else if mic then Finite (6 # 1) else Finite (24 # 25);
     get_angle := λ _ _ _ _, Finite (100 # 1) |}.

(** The float comparison [a <= b]. *)
Definition fle (a b : pyfloat) : bool := flt a b || feq a b.

(** Two atoms, too few for a molecule, whose geometry is all NaN. *)
Definition two_atoms : Atoms :=
  {| len := 2; get_distance := λ _ _ _, NaN; get_angle := λ _ _ _ _, NaN |}.

(** The number of bonds that an oxygen accepts, and that it donates. *)
Definition accepted_by (oxygen : Z) (hbonds : list hbond) : Z :=
  Z.of_nat (length (filter (λ b : hbond, b.1.1 = oxygen) hbonds)).

Definition donated_by (oxygen : Z) (hbonds : list hbond) : Z :=
  Z.of_nat (length (filter (λ b : hbond, b.1.2 = oxygen) hbonds)).

(** The character [c] does not occur in the string [s]. *)
Fixpoint free_of (c : ascii) (s : string) : Prop :=
  match s with
  | EmptyString => True
  | String a s' => a ≠ c ∧ free_of c s'
  end.

(** Equality of role-count entries is decidable. *)
#[global] Instance role_counts_eq_dec : EqDecision role_counts.
Proof. solve_decision. Defined.

(** The number of oxygens of [oxygen_bond_counts] whose entry is exactly
    [counts]. *)
Definition oxygens_with (counts : role_counts) (obc : gmap Z role_counts) : Z :=
  Z.of_nat (length (filter (λ item : Z * role_counts, item.2 = counts) (map_to_list obc))).

(** The lexicographic order on bonds by donor oxygen, then acceptor
    oxygen, then hydrogen. *)
Definition bond_before (b1 b2 : hbond) : Prop :=
  b1.1.2 < b2.1.2
  ∨ (b1.1.2 = b2.1.2 ∧ (b1.1.1 < b2.1.1 ∨ (b1.1.1 = b2.1.1 ∧ b1.2 < b2.2))).

(** The chain seen through another [Atoms] object: the same
    minimum-image geometry, but no atom count and different plain
    distances. *)
Definition chain_mic_only : Atoms :=
  {| len := 0;
     get_distance := λ a b mic, if mic then chain_distance a b true else Finite (9 # 1);
     get_angle := λ a b c mic, if mic then chain_angle a b c true else NaN |}.

(** * Properties *)

(** ** The result monad *)

Lemma bind_Ok {A B : Type} (a : A) (k : A → result B) : bind (Ok a) k = k a.
Proof. reflexivity. Qed.

Lemma bind_Raise {A B : Type} (e : pyexn) (k : A → result B) :
  bind (Raise e) k = Raise e.
Proof. reflexivity. Qed.

Lemma py_assert_true : py_assert true = Ok tt.
Proof. reflexivity. Qed.

Lemma py_assert_false : py_assert false = Raise AssertionError.
Proof. reflexivity. Qed.

(** ** The float comparison is strict *)

Lemma Qltb_irrefl (q : Q) : Qltb q q = false.
Proof. unfold Qltb. apply Z.ltb_irrefl. Qed.

Lemma flt_irrefl (x : pyfloat) : flt x x = false.
Proof. destruct x; simpl; auto using Qltb_irrefl. Qed.

Lemma flt_feq (a b : pyfloat) : feq a b = true → flt a b = false.
Proof.
  destruct a as [p| | |], b as [q| | |]; simpl; try done.
  intros Heq. apply Qeq_bool_iff in Heq. unfold Qltb. unfold Qeq in Heq.
  apply Z.ltb_ge. lia.
Qed.

Lemma Qltb_lt (p q : Q) : Qltb p q = true ↔ (p < q)%Q.
Proof. unfold Qltb, Qlt. apply Z.ltb_lt. Qed.

(** ** The molecule builder *)

Section builder.
Variable atoms : Atoms.

Lemma build_loop_all_ok (range : list nat) (acc : list water) :
  (∀ i, i ∈ range → triplet_ok atoms i = true) →
  build_loop atoms range acc = Ok (acc ++ (water_at <$> range)).
Proof.
  revert acc. induction range as [|i range IH]; intros acc Hok; simpl.
  - by rewrite app_nil_r.
  - assert (Hi : triplet_ok atoms i = true) by (apply Hok; left).
    apply andb_true_iff in Hi as [H1 H2].
    rewrite H1, H2. simpl.
    rewrite IH by (intros k Hk; apply Hok; by right).
    by rewrite <- app_assoc.
Qed.

Lemma build_loop_some_bad (range : list nat) (acc : list water) :
  (∃ i, i ∈ range ∧ triplet_ok atoms i = false) →
  build_loop atoms range acc = Raise AssertionError.
Proof.
  revert acc. induction range as [|i range IH]; intros acc [k [Hk Hbad]].
  - by apply elem_of_nil in Hk.
  - simpl.
    destruct (flt (get_distance atoms (3 * Z.of_nat i) (3 * Z.of_nat i + 1) false)
                  OH_threshold) eqn:H1; [|reflexivity].
    destruct (flt (get_distance atoms (3 * Z.of_nat i) (3 * Z.of_nat i + 2) false)
                  OH_threshold) eqn:H2; [|reflexivity].
    simpl. apply IH. exists k. split; [|done].
    apply elem_of_cons in Hk as [->|Hk]; [|done].
    unfold triplet_ok in Hbad. rewrite H1, H2 in Hbad. discriminate.
Qed.

Lemma build_water_molecules_ok :
  (∀ i, (i < len atoms / 3)%nat → triplet_ok atoms i = true) →
  build_water_molecules atoms = Ok (water_at <$> seq 0 (len atoms / 3)).
Proof.
  intros Hok. unfold build_water_molecules.
  rewrite build_loop_all_ok; [done|].
  intros i Hi. apply Hok. apply elem_of_seq in Hi. lia.
Qed.

Lemma build_water_molecules_bad :
  (∃ i, (i < len atoms / 3)%nat ∧ triplet_ok atoms i = false) →
  build_water_molecules atoms = Raise AssertionError.
Proof.
  intros [i [Hi Hbad]]. unfold build_water_molecules.
  apply build_loop_some_bad. exists i. split; [|done].
  apply elem_of_seq. lia.
Qed.

Lemma built_lookup (i : nat) :
  (i < len atoms / 3)%nat →
  (water_at <$> seq 0 (len atoms / 3)) !! i = Some (water_at i).
Proof.
  intros Hi. rewrite list_lookup_fmap, lookup_seq_lt by done. reflexivity.
Qed.

Lemma built_elem (m : water) :
  m ∈ water_at <$> seq 0 (len atoms / 3) ↔
  ∃ i, (i < len atoms / 3)%nat ∧ m = water_at i.
Proof.
  rewrite list_elem_of_fmap. split.
  - intros [i [-> Hi]]. exists i. apply elem_of_seq in Hi. split; [lia|done].
  - intros [i [Hi ->]]. exists i. split; [done|]. apply elem_of_seq. lia.
Qed.
End builder.

(** ** The detector *)

Lemma elem_of_enumerate_from {A : Type} (l : list A) (start i : nat) (x : A) :
  (i, x) ∈ enumerate_from start l ↔ (start ≤ i)%nat ∧ l !! (i - start)%nat = Some x.
Proof.
  revert start. induction l as [|y l IH]; intros start; simpl.
  - rewrite elem_of_nil. naive_solver.
  - rewrite elem_of_cons, IH. split.
    + intros [Heq | [Hle Hl]].
      * inversion Heq; subst. split; [lia|]. by rewrite Nat.sub_diag.
      * split; [lia|]. by replace (i - start)%nat with (S (i - S start)) by lia.
    + intros [Hle Hl]. destruct (decide (i = start)) as [->|Hne].
      * left. rewrite Nat.sub_diag in Hl. simpl in Hl. congruence.
      * right. split; [lia|].
        by replace (i - start)%nat with (S (i - S start)) in Hl by lia.
Qed.

Lemma elem_of_enumerate {A : Type} (l : list A) (i : nat) (x : A) :
  (i, x) ∈ enumerate l ↔ l !! i = Some x.
Proof.
  unfold enumerate. rewrite elem_of_enumerate_from, Nat.sub_0_r.
  split; [by intros [_ ?] | split; [lia | done]].
Qed.

Section detector.
Variable atoms : Atoms.
Variables distance_cutoff angle_cutoff : pyfloat.

Lemma hydrogen_loop_app (acceptor_O donor_O : Z) (hs : list Z) (acc : list hbond) :
  hydrogen_loop atoms angle_cutoff acceptor_O donor_O hs acc =
  acc ++ ((λ h, (acceptor_O, donor_O, h)) <$>
            filter (λ h, flt (get_angle atoms acceptor_O donor_O h true) angle_cutoff = true)
                   hs).
Proof.
  revert acc. induction hs as [|h hs IH]; intros acc; simpl.
  - by rewrite app_nil_r.
  - rewrite IH, filter_cons.
    destruct (flt (get_angle atoms acceptor_O donor_O h true) angle_cutoff) eqn:Hth.
    + rewrite decide_True by done. by rewrite fmap_cons, <- app_assoc.
    + by rewrite decide_False by done.
Qed.

Lemma acceptor_loop_app (i : nat) (donor : water) (acceptors : list (nat * water))
    (acc : list hbond) :
  acceptor_loop atoms distance_cutoff angle_cutoff i donor acceptors acc =
  acc ++ ('(j, acceptor) ← acceptors;
          emitted_by_pair atoms distance_cutoff angle_cutoff i donor j acceptor).
Proof.
  revert acc. induction acceptors as [|[j acceptor] acceptors IH]; intros acc; simpl.
  - by rewrite app_nil_r.
  - unfold emitted_by_pair at 1. destruct (Nat.eqb_spec i j) as [->|Hne].
    + rewrite decide_True by done. by rewrite IH.
    + rewrite decide_False by done. rewrite IH.
      destruct (flt _ distance_cutoff); [|done].
      by rewrite hydrogen_loop_app, <- app_assoc.
Qed.

Lemma donor_loop_app (water_mols : list water) (donors : list (nat * water))
    (acc : list hbond) :
  donor_loop atoms distance_cutoff angle_cutoff water_mols donors acc =
  acc ++ ('(i, donor) ← donors;
          '(j, acceptor) ← enumerate water_mols;
          emitted_by_pair atoms distance_cutoff angle_cutoff i donor j acceptor).
Proof.
  revert acc. induction donors as [|[i donor] donors IH]; intros acc; simpl.
  - by rewrite app_nil_r.
  - by rewrite IH, acceptor_loop_app, <- app_assoc.
Qed.

(** The accumulating loops produce the bonds of all ordered pairs in
    iteration order. *)
Lemma find_hydrogen_bonds_by_pairs (water_mols : list water) :
  find_hydrogen_bonds atoms water_mols distance_cutoff angle_cutoff =
  bonds_in_iteration_order atoms water_mols distance_cutoff angle_cutoff.
Proof. unfold find_hydrogen_bonds. by rewrite donor_loop_app. Qed.

Lemma elem_of_emitted_by_pair (b : hbond) (i j : nat) (donor acceptor : water) :
  b ∈ emitted_by_pair atoms distance_cutoff angle_cutoff i donor j acceptor ↔
  i ≠ j
  ∧ flt (get_distance atoms (O donor) (O acceptor) true) distance_cutoff = true
  ∧ ∃ h, h ∈ H donor
         ∧ flt (get_angle atoms (O acceptor) (O donor) h true) angle_cutoff = true
         ∧ b = (O acceptor, O donor, h).
Proof.
  unfold emitted_by_pair. destruct (decide (i = j)) as [->|Hne].
  - rewrite elem_of_nil. naive_solver.
  - destruct (flt (get_distance _ _ _ _) distance_cutoff).
    + rewrite list_elem_of_fmap. setoid_rewrite list_elem_of_filter. naive_solver.
    + rewrite elem_of_nil. naive_solver.
Qed.

Lemma elem_of_find_hydrogen_bonds (b : hbond) (water_mols : list water) :
  b ∈ find_hydrogen_bonds atoms water_mols distance_cutoff angle_cutoff ↔
  ∃ i j donor acceptor,
    water_mols !! i = Some donor ∧ water_mols !! j = Some acceptor
    ∧ b ∈ emitted_by_pair atoms distance_cutoff angle_cutoff i donor j acceptor.
Proof.
  rewrite find_hydrogen_bonds_by_pairs. unfold bonds_in_iteration_order.
  rewrite list_elem_of_bind. split.
  - intros [[i donor] [Hb Hi]]. apply list_elem_of_bind in Hb as [[j acceptor] [Hb Hj]].
    apply elem_of_enumerate in Hi, Hj. by exists i, j, donor, acceptor.
  - intros (i & j & donor & acceptor & Hi & Hj & Hb).
    exists (i, donor). split; [|by apply elem_of_enumerate].
    apply list_elem_of_bind. exists (j, acceptor). split; [done|].
    by apply elem_of_enumerate.
Qed.
End detector.

Lemma NoDup_fmap_lookup_inj {A B : Type} (f : A → B) (l : list A) (i j : nat) (x y : A) :
  NoDup (f <$> l) → l !! i = Some x → l !! j = Some y → f x = f y → i = j ∧ x = y.
Proof.
  intros Hnd Hi Hj Hf.
  assert (i = j) as ->.
  { eapply NoDup_lookup; [exact Hnd| |].
    - rewrite list_lookup_fmap, Hi. reflexivity.
    - rewrite list_lookup_fmap, Hj. simpl. by rewrite Hf. }
  split; [done|congruence].
Qed.

(** C1. For the donor at position [i], the acceptor at position [j] and a
    hydrogen [h] of the donor, the iteration of the pair emits
    [(acceptor_O, donor_O, h)] exactly when [i ≠ j], the minimum-image
    O-O distance is strictly below the distance cut-off and the angle
    acceptor_O-donor_O-h is strictly below the angle cut-off; the output
    of [find_hydrogen_bonds] is the concatenation of what the iterations
    emit, so the bond is in the output whenever the criterion holds, and,
    when the molecules have pairwise different oxygens, only then.  A
    distance or an angle equal to its cut-off emits nothing, and neither
    does a self-pair. *)
Theorem find_hydrogen_bonds_criterion (atoms : Atoms) (water_mols : list water)
    (distance_cutoff angle_cutoff : pyfloat) (i j : nat) (donor acceptor : water) (h : Z) :
  water_mols !! i = Some donor →
  water_mols !! j = Some acceptor →
  h ∈ H donor →
  let bond : hbond := (O acceptor, O donor, h) in
  let OO_dist := get_distance atoms (O donor) (O acceptor) true in
  let theta := get_angle atoms (O acceptor) (O donor) h true in
  let criterion := i ≠ j ∧ flt OO_dist distance_cutoff = true ∧ flt theta angle_cutoff = true in
  find_hydrogen_bonds atoms water_mols distance_cutoff angle_cutoff =
    bonds_in_iteration_order atoms water_mols distance_cutoff angle_cutoff
  ∧ (bond ∈ emitted_by_pair atoms distance_cutoff angle_cutoff i donor j acceptor ↔ criterion)
  ∧ (criterion → bond ∈ find_hydrogen_bonds atoms water_mols distance_cutoff angle_cutoff)
  ∧ (NoDup (O <$> water_mols) →
     (bond ∈ find_hydrogen_bonds atoms water_mols distance_cutoff angle_cutoff ↔ criterion))
  ∧ (OO_dist = distance_cutoff ∨ feq OO_dist distance_cutoff = true →
     bond ∉ emitted_by_pair atoms distance_cutoff angle_cutoff i donor j acceptor)
  ∧ (theta = angle_cutoff ∨ feq theta angle_cutoff = true →
     bond ∉ emitted_by_pair atoms distance_cutoff angle_cutoff i donor j acceptor)
  ∧ emitted_by_pair atoms distance_cutoff angle_cutoff i donor i donor = [].
Proof.
  intros Hi Hj Hh bond OO_dist theta criterion.
  assert (Hpair : bond ∈ emitted_by_pair atoms distance_cutoff angle_cutoff i donor j acceptor
                  ↔ criterion).
  { rewrite elem_of_emitted_by_pair. unfold criterion, bond, OO_dist, theta. split.
    - intros (Hne & Hd & h' & _ & Ha & Heq). inversion Heq; subst h'. done.
    - intros (Hne & Hd & Ha). split; [done|]. split; [done|]. by exists h. }
  assert (Hin : criterion →
                bond ∈ find_hydrogen_bonds atoms water_mols distance_cutoff angle_cutoff).
  { intros Hc. apply elem_of_find_hydrogen_bonds. exists i, j, donor, acceptor.
    split; [done|]. split; [done|]. by apply Hpair. }
  split; [apply find_hydrogen_bonds_by_pairs|].
  split; [exact Hpair|]. split; [exact Hin|]. split; [|split; [|split]].
  - intros Hnd. split; [|exact Hin].
    intros Hb. apply elem_of_find_hydrogen_bonds in Hb
      as (i' & j' & donor' & acceptor' & Hi' & Hj' & Hb).
    apply elem_of_emitted_by_pair in Hb as (Hne & Hd & h' & _ & Ha & Heq).
    inversion Heq as [[HOa HOd Hh']]. subst h'.
    destruct (NoDup_fmap_lookup_inj O water_mols j j' acceptor acceptor' Hnd Hj Hj' HOa)
      as [-> ->].
    destruct (NoDup_fmap_lookup_inj O water_mols i i' donor donor' Hnd Hi Hi' HOd)
      as [-> ->].
    unfold criterion, OO_dist, theta. done.
  - intros Heq Hb. apply Hpair in Hb as (_ & Hd & _).
    destruct Heq as [Heq|Heq].
    + rewrite Heq, flt_irrefl in Hd. discriminate.
    + apply flt_feq in Heq. congruence.
  - intros Heq Hb. apply Hpair in Hb as (_ & _ & Ha).
    destruct Heq as [Heq|Heq].
    + rewrite Heq, flt_irrefl in Ha. discriminate.
    + apply flt_feq in Heq. congruence.
  - unfold emitted_by_pair. by rewrite decide_True.
Qed.

(** In the chain, molecule 0 donates its first hydrogen to molecule 1
    under the default cut-offs. *)
Lemma find_hydrogen_bonds_criterion_witness :
  chain_mols !! 0%nat = Some (water_at 0)
  ∧ chain_mols !! 1%nat = Some (water_at 1)
  ∧ (3, 0, 1) ∈ find_hydrogen_bonds chain chain_mols
                  default_distance_cutoff default_angle_cutoff.
Proof.
  split; [reflexivity|]. split; [reflexivity|].
  assert (Hh : 1 ∈ H (water_at 0)) by (simpl; constructor).
  pose proof (find_hydrogen_bonds_criterion chain chain_mols
                default_distance_cutoff default_angle_cutoff
                0 1 (water_at 0) (water_at 1) 1 eq_refl eq_refl Hh) as W.
  simpl in W. destruct W as (_ & _ & W & _).
  apply W. split; [lia|]. split; reflexivity.
Defined.

Lemma chain_bonds :
  find_hydrogen_bonds chain chain_mols default_distance_cutoff default_angle_cutoff
  = [(3, 0, 1)].
Proof. vm_compute. reflexivity. Qed.

(** C7. The bond list is the concatenation of the contributions of the
    ordered pairs in iteration order: donors outermost, acceptors next,
    the donor's hydrogens innermost.  The detector does not symmetrize:
    in the chain the bond (3, 0, 1) is present and no bond (0, 3, h') is.
    It does not deduplicate either: a molecule listed twice as acceptor
    yields the same tuple twice. *)
Theorem find_hydrogen_bonds_order_and_direction :
  (∀ atoms water_mols distance_cutoff angle_cutoff,
     find_hydrogen_bonds atoms water_mols distance_cutoff angle_cutoff =
     '(i, donor) ← enumerate water_mols;
     '(j, acceptor) ← enumerate water_mols;
     emitted_by_pair atoms distance_cutoff angle_cutoff i donor j acceptor)
  ∧ ((3, 0, 1) ∈ find_hydrogen_bonds chain chain_mols
                   default_distance_cutoff default_angle_cutoff
     ∧ ∀ h', (0, 3, h') ∉ find_hydrogen_bonds chain chain_mols
                            default_distance_cutoff default_angle_cutoff)
  ∧ find_hydrogen_bonds chain [water_at 0; water_at 1; water_at 1]
      default_distance_cutoff default_angle_cutoff
    = [(3, 0, 1); (3, 0, 1)].
Proof.
  split; [|split; [split|]].
  - intros. apply find_hydrogen_bonds_by_pairs.
  - rewrite chain_bonds. constructor.
  - intros h'. rewrite chain_bonds. intros Hin.
    apply list_elem_of_singleton in Hin. discriminate.
  - vm_compute. reflexivity.
Qed.

Lemma build_loop_Ok_inv (atoms : Atoms) (range : list nat) (acc mols : list water) :
  build_loop atoms range acc = Ok mols →
  mols = acc ++ (water_at <$> range) ∧ ∀ i, i ∈ range → triplet_ok atoms i = true.
Proof.
  revert acc. induction range as [|i range IH]; intros acc; simpl.
  - intros [= <-]. split; [by rewrite app_nil_r|]. intros i Hi. by apply elem_of_nil in Hi.
  - destruct (flt (get_distance atoms (3 * Z.of_nat i) (3 * Z.of_nat i + 1) false)
                OH_threshold) eqn:H1; [|discriminate].
    destruct (flt (get_distance atoms (3 * Z.of_nat i) (3 * Z.of_nat i + 2) false)
                OH_threshold) eqn:H2; [|discriminate].
    simpl. intros Hb. apply IH in Hb as [-> Hok]. split.
    + by rewrite <- app_assoc.
    + intros k [->|Hk]%elem_of_cons; [|by apply Hok].
      unfold triplet_ok. by rewrite H1, H2.
Qed.

Lemma build_water_molecules_Ok_inv (atoms : Atoms) (mols : list water) :
  build_water_molecules atoms = Ok mols →
  mols = water_at <$> seq 0 (len atoms / 3).
Proof. intros Hb. by apply build_loop_Ok_inv in Hb as [-> _]. Qed.

Lemma NoDup_built_oxygens (n : nat) : NoDup (O <$> (water_at <$> seq 0 n)).
Proof.
  rewrite <- list_fmap_compose. apply NoDup_fmap_2_strong; [|apply NoDup_seq].
  intros x y _ _. simpl. lia.
Qed.

(** C9. On a molecule list produced by [build_water_molecules], every
    bond [(acceptor_O, donor_O, h)] emitted by [find_hydrogen_bonds] has
    two different oxygen indices, both multiples of 3 that address
    molecules of the list, and [h] is [donor_O + 1] or [donor_O + 2]. *)
Theorem built_bonds_well_formed (atoms : Atoms) (water_mols : list water)
    (distance_cutoff angle_cutoff : pyfloat) (acceptor_O donor_O h : Z) :
  build_water_molecules atoms = Ok water_mols →
  (acceptor_O, donor_O, h)
    ∈ find_hydrogen_bonds atoms water_mols distance_cutoff angle_cutoff →
  acceptor_O `mod` 3 = 0 ∧ donor_O `mod` 3 = 0
  ∧ acceptor_O ≠ donor_O
  ∧ (h = donor_O + 1 ∨ h = donor_O + 2)
  ∧ 0 ≤ acceptor_O < 3 * Z.of_nat (len atoms / 3)
  ∧ 0 ≤ donor_O < 3 * Z.of_nat (len atoms / 3).
Proof.
  intros Hbuild Hin. apply build_water_molecules_Ok_inv in Hbuild as ->.
  apply elem_of_find_hydrogen_bonds in Hin as (i & j & donor & acceptor & Hi & Hj & Hin).
  apply elem_of_emitted_by_pair in Hin as (Hne & _ & h' & Hh & _ & Heq).
  inversion Heq; subst; clear Heq.
  apply list_lookup_fmap_Some in Hi as (i' & -> & Hi).
  apply list_lookup_fmap_Some in Hj as (j' & -> & Hj).
  apply lookup_seq in Hi as [-> Hi]. apply lookup_seq in Hj as [-> Hj].
  cbn [O H water_at Nat.add] in *.
  assert (Hh' : h' = 3 * Z.of_nat i + 1 ∨ h' = 3 * Z.of_nat i + 2).
  { apply elem_of_cons in Hh as [->|Hh]; [by left|].
    apply list_elem_of_singleton in Hh as ->. by right. }
  repeat split; try lia.
  all: rewrite Z.mul_comm; apply Z_mod_mult.
Qed.

Lemma chain_built : build_water_molecules chain = Ok chain_mols.
Proof. vm_compute. reflexivity. Qed.

Lemma built_bonds_well_formed_witness :
  3 `mod` 3 = 0 ∧ 0 `mod` 3 = 0 ∧ 3 ≠ 0 ∧ (1 = 0 + 1 ∨ 1 = 0 + 2)
  ∧ 0 ≤ 3 < 3 * Z.of_nat (len chain / 3)
  ∧ 0 ≤ 0 < 3 * Z.of_nat (len chain / 3).
Proof.
  apply (built_bonds_well_formed chain chain_mols
           default_distance_cutoff default_angle_cutoff 3 0 1).
  - vm_compute. reflexivity.
  - vm_compute. constructor.
Defined.

(** ** Construction: validation and grouping *)

Lemma triplet_ok_false (atoms : Atoms) (i : nat) :
  triplet_ok atoms i = false ↔
  flt (get_distance atoms (3 * Z.of_nat i) (3 * Z.of_nat i + 1) false) OH_threshold = false
  ∨ flt (get_distance atoms (3 * Z.of_nat i) (3 * Z.of_nat i + 2) false) OH_threshold = false.
Proof. unfold triplet_ok. apply andb_false_iff. Qed.

Lemma triplet_ok_true (atoms : Atoms) (i : nat) :
  triplet_ok atoms i = true ↔
  flt (get_distance atoms (3 * Z.of_nat i) (3 * Z.of_nat i + 1) false) OH_threshold = true
  ∧ flt (get_distance atoms (3 * Z.of_nat i) (3 * Z.of_nat i + 2) false) OH_threshold = true.
Proof. unfold triplet_ok. apply andb_true_iff. Qed.

Lemma main_aborts (atoms : Atoms) (e : pyexn) :
  build_water_molecules atoms = Raise e → main atoms = Raise e.
Proof. intros Hb. unfold main. by rewrite Hb. Qed.

(** C3. When the atom count is a multiple of 3 and some triplet
    [3i, 3i+1, 3i+2] has an O-H distance that is not below 1.5, the
    builder raises the error of its [assert] statements (the fatal error
    the specification calls MalformedMoleculeError) and so does [main],
    which therefore returns no result, partial or not; when both O-H
    distances of every triplet are below 1.5 the builder returns a
    molecule list. *)
Theorem build_water_molecules_validation (atoms : Atoms) :
  (len atoms `mod` 3 = 0)%nat →
  ((∃ i, (i < len atoms / 3)%nat
         ∧ (flt (get_distance atoms (3 * Z.of_nat i) (3 * Z.of_nat i + 1) false)
                OH_threshold = false
            ∨ flt (get_distance atoms (3 * Z.of_nat i) (3 * Z.of_nat i + 2) false)
                  OH_threshold = false)) →
   build_water_molecules atoms = Raise AssertionError
   ∧ main atoms = Raise AssertionError)
  ∧ ((∀ i, (i < len atoms / 3)%nat →
           flt (get_distance atoms (3 * Z.of_nat i) (3 * Z.of_nat i + 1) false)
               OH_threshold = true
           ∧ flt (get_distance atoms (3 * Z.of_nat i) (3 * Z.of_nat i + 2) false)
                 OH_threshold = true) →
     ∃ water_mols, build_water_molecules atoms = Ok water_mols).
Proof.
  intros _. split.
  - intros (i & Hi & Hbad).
    assert (Hb : build_water_molecules atoms = Raise AssertionError).
    { apply build_water_molecules_bad. exists i. split; [done|].
      by apply triplet_ok_false. }
    split; [exact Hb | by apply main_aborts].
  - intros Hok. eexists. apply build_water_molecules_ok.
    intros i Hi. apply triplet_ok_true. by apply Hok.
Qed.

Lemma build_water_molecules_validation_witness :
  build_water_molecules stretched = Raise AssertionError
  ∧ main stretched = Raise AssertionError.
Proof.
  apply (build_water_molecules_validation stretched).
  - reflexivity.
  - exists 1%nat. split; [vm_compute; lia|]. right. reflexivity.
Defined.

(** C4. When every triplet passes the sanity check, the builder returns
    exactly [floor(N / 3)] molecules, molecule [i] being
    [{'O': 3i, 'H': [3i+1, 3i+2]}]; an atom index at or beyond
    [3 * floor(N / 3)], in particular a trailing atom when [N] is not a
    multiple of 3, is the oxygen or a hydrogen of no molecule. *)
Theorem build_water_molecules_grouping (atoms : Atoms) :
  (∀ i, (i < len atoms / 3)%nat → triplet_ok atoms i = true) →
  ∃ water_mols,
    build_water_molecules atoms = Ok water_mols
    ∧ length water_mols = (len atoms / 3)%nat
    ∧ (∀ i, (i < len atoms / 3)%nat →
            water_mols !! i
            = Some {| O := 3 * Z.of_nat i;
                      H := [3 * Z.of_nat i + 1; 3 * Z.of_nat i + 2] |})
    ∧ (∀ a m, 3 * Z.of_nat (len atoms / 3) ≤ a → m ∈ water_mols →
              O m ≠ a ∧ a ∉ H m).
Proof.
  intros Hok. exists (water_at <$> seq 0 (len atoms / 3)).
  split; [by apply build_water_molecules_ok|].
  split; [by rewrite length_fmap, length_seq|].
  split; [intros i Hi; by apply built_lookup|].
  intros a m Ha Hm. apply built_elem in Hm as (i & Hi & ->).
  cbn [O H water_at]. split; [lia|].
  intros [->|Hin]%elem_of_cons; [lia|].
  apply list_elem_of_singleton in Hin. lia.
Qed.

Lemma build_water_molecules_grouping_witness :
  ∃ water_mols,
    build_water_molecules seven = Ok water_mols
    ∧ length water_mols = (len seven / 3)%nat
    ∧ (∀ i, (i < len seven / 3)%nat →
            water_mols !! i
            = Some {| O := 3 * Z.of_nat i;
                      H := [3 * Z.of_nat i + 1; 3 * Z.of_nat i + 2] |})
    ∧ (∀ a m, 3 * Z.of_nat (len seven / 3) ≤ a → m ∈ water_mols →
              O m ≠ a ∧ a ∉ H m).
Proof.
  apply (build_water_molecules_grouping seven).
  intros i Hi. reflexivity.
Defined.

(** ** One molecule *)

Lemma find_hydrogen_bonds_single (atoms : Atoms) (m : water)
    (distance_cutoff angle_cutoff : pyfloat) :
  find_hydrogen_bonds atoms [m] distance_cutoff angle_cutoff = [].
Proof. reflexivity. Qed.

Lemma analyze_bond_counts_nil : analyze_bond_counts [] = Ok (∅, ∅, ∅).
Proof. reflexivity. Qed.

(** C6. On the empty bond collection the classifier returns three empty
    mappings; in particular the comprehension that divides by the
    number of oxygens runs over no entry and raises nothing. *)
Theorem analyze_bond_counts_empty :
  analyze_bond_counts [] = Ok (∅, ∅, ∅)
  ∧ percent_items (Z.of_nat (size (∅ : gmap Z role_counts)))
      (map_to_list (∅ : gmap string Z)) ∅
    = Ok ∅.
Proof. split; reflexivity. Qed.

(** C8. An input that holds a single (well-formed) water molecule goes
    through the whole pipeline: the builder returns one molecule, the
    detector returns no bond, whatever the cut-offs, the average is the
    integer 0 and the three classifier outputs are empty. *)
Theorem single_molecule_pipeline (atoms : Atoms) :
  (len atoms / 3 = 1)%nat →
  triplet_ok atoms 0 = true →
  build_water_molecules atoms = Ok [water_at 0]
  ∧ (∀ distance_cutoff angle_cutoff,
       find_hydrogen_bonds atoms [water_at 0] distance_cutoff angle_cutoff = [])
  ∧ calculate_average_hbonds [] = Ok (PyInt 0)
  ∧ analyze_bond_counts [] = Ok (∅, ∅, ∅)
  ∧ main atoms = Ok {| average_hbonds := PyInt 0;
                       oxygen_bond_counts := ∅;
                       type_counts := ∅;
                       percentages := ∅ |}.
Proof.
  intros Hlen Hok.
  assert (Hb : build_water_molecules atoms = Ok [water_at 0]).
  { rewrite build_water_molecules_ok, Hlen; [reflexivity|].
    intros i Hi. rewrite Hlen in Hi. by replace i with 0%nat by lia. }
  split; [exact Hb|]. split; [intros; apply find_hydrogen_bonds_single|].
  split; [reflexivity|]. split; [reflexivity|].
  unfold main. rewrite Hb. reflexivity.
Qed.

Lemma single_molecule_pipeline_witness :
  main isolated = Ok {| average_hbonds := PyInt 0;
                        oxygen_bond_counts := ∅;
                        type_counts := ∅;
                        percentages := ∅ |}.
Proof.
  apply (single_molecule_pipeline isolated); reflexivity.
Defined.

(** ** Population statistics *)

Lemma np_unique_length (l : list Z) :
  length (np_unique l) = size (list_to_set l : gset Z).
Proof.
  unfold np_unique. rewrite merge_sort_Permutation.
  rewrite <- (size_list_to_set (C := gset Z)) by apply NoDup_remove_dups.
  f_equal. apply set_eq. intros x.
  by rewrite !elem_of_list_to_set, elem_of_remove_dups.
Qed.

Lemma np_unique_length_le (l : list Z) : (length (np_unique l) ≤ length l)%nat.
Proof.
  unfold np_unique. rewrite merge_sort_Permutation.
  apply submseteq_length, NoDup_submseteq; [apply NoDup_remove_dups|].
  intros x. by rewrite elem_of_remove_dups.
Qed.

Lemma columns_participating (hbonds : list hbond) :
  (list_to_set (column0 hbonds ++ column1 hbonds) : gset Z) = participating_oxygens hbonds.
Proof.
  apply set_eq. intros x. unfold participating_oxygens, column0, column1.
  rewrite elem_of_list_to_set, elem_of_app, !list_elem_of_fmap, elem_of_union_list.
  split.
  - intros [[b [-> Hb]] | [b [-> Hb]]].
    + exists {[ b.1.1; b.1.2 ]}. split; [|set_solver].
      apply list_elem_of_fmap. by exists b.
    + exists {[ b.1.1; b.1.2 ]}. split; [|set_solver].
      apply list_elem_of_fmap. by exists b.
  - intros [X [HX Hx]]. apply list_elem_of_fmap in HX as [b [-> Hb]].
    apply elem_of_union in Hx as [Hx | Hx]; apply elem_of_singleton in Hx as ->.
    + left. by exists b.
    + right. by exists b.
Qed.

Lemma unique_oxygens_count (hbonds : list hbond) :
  length (np_unique (column0 hbonds ++ column1 hbonds))
  = size (participating_oxygens hbonds).
Proof. by rewrite np_unique_length, columns_participating. Qed.

Lemma participating_oxygens_bounds (hbonds : list hbond) :
  hbonds ≠ [] →
  (0 < size (participating_oxygens hbonds) ≤ 2 * length hbonds)%nat.
Proof.
  intros Hne. split.
  - destruct hbonds as [|b hbonds]; [done|].
    assert (Hin : b.1.1 ∈ participating_oxygens (b :: hbonds)).
    { unfold participating_oxygens. rewrite fmap_cons, union_list_cons. set_solver. }
    destruct (decide (size (participating_oxygens (b :: hbonds)) = 0)%nat) as [Hz|]; [|lia].
    apply size_empty_inv in Hz. set_solver.
  - rewrite <- unique_oxygens_count.
    etrans; [apply np_unique_length_le|].
    unfold column0, column1. rewrite length_app, !length_fmap. lia.
Qed.

Lemma calculate_average_hbonds_nonempty (hbonds : list hbond) :
  hbonds ≠ [] →
  calculate_average_hbonds hbonds
  = Ok (PyFloat (inject_Z (2 * Z.of_nat (length hbonds))
                 / inject_Z (Z.of_nat (size (participating_oxygens hbonds))))%Q).
Proof.
  intros Hne. pose proof (participating_oxygens_bounds hbonds Hne) as [Hpos _].
  destruct hbonds as [|b hbonds]; [done|].
  unfold calculate_average_hbonds. cbv zeta.
  rewrite unique_oxygens_count. unfold py_truediv.
  destruct (Z.eqb_spec (Z.of_nat (size (participating_oxygens (b :: hbonds)))) 0) as [Hz|_].
  - lia.
  - reflexivity.
Qed.

(** C2. For a non-empty bond collection the function returns the float
    [2 * len(hbonds) / k] where [k], which is positive, is the number of
    distinct oxygens appearing as acceptor or donor of a bond; for the
    empty collection it returns the integer 0 and raises nothing. *)
Theorem calculate_average_hbonds_formula (hbonds : list hbond) :
  (hbonds ≠ [] →
   (0 < size (participating_oxygens hbonds))%nat
   ∧ calculate_average_hbonds hbonds
     = Ok (PyFloat (inject_Z (2 * Z.of_nat (length hbonds))
                    / inject_Z (Z.of_nat (size (participating_oxygens hbonds))))%Q))
  ∧ calculate_average_hbonds [] = Ok (PyInt 0).
Proof.
  split; [|reflexivity].
  intros Hne. pose proof (participating_oxygens_bounds hbonds Hne) as [Hpos _].
  split; [exact Hpos|]. by apply calculate_average_hbonds_nonempty.
Qed.

Lemma calculate_average_hbonds_formula_witness :
  calculate_average_hbonds three_bonds
  = Ok (PyFloat (inject_Z (2 * Z.of_nat (length three_bonds))
                 / inject_Z (Z.of_nat (size (participating_oxygens three_bonds))))%Q).
Proof.
  apply (calculate_average_hbonds_formula three_bonds).
  discriminate.
Defined.

(** C10. For a non-empty bond collection the returned average is at
    least 1: the number of distinct oxygens is at most twice the number
    of bonds. *)
Theorem calculate_average_hbonds_ge_1 (hbonds : list hbond) :
  hbonds ≠ [] →
  (size (participating_oxygens hbonds) ≤ 2 * length hbonds)%nat
  ∧ ∃ avg_hbonds,
      calculate_average_hbonds hbonds = Ok (PyFloat avg_hbonds)
      ∧ (1 <= avg_hbonds)%Q.
Proof.
  intros Hne. pose proof (participating_oxygens_bounds hbonds Hne) as [Hpos Hle].
  split; [exact Hle|].
  rewrite calculate_average_hbonds_nonempty by done. eexists. split; [reflexivity|].
  apply Qle_shift_div_l.
  - replace 0%Q with (inject_Z 0) by reflexivity. rewrite <- Zlt_Qlt. lia.
  - rewrite Qmult_1_l, <- Zle_Qle. lia.
Qed.


Lemma calculate_average_hbonds_ge_1_witness :
  ∃ avg_hbonds,
    calculate_average_hbonds three_bonds = Ok (PyFloat avg_hbonds)
    ∧ (1 <= avg_hbonds)%Q.
Proof.
  apply (calculate_average_hbonds_ge_1 three_bonds).
  discriminate.
Defined.

(** ** The classifier *)

Lemma sum_Z_perm (l1 l2 : list Z) : l1 ≡ₚ l2 → foldr Z.add 0 l1 = foldr Z.add 0 l2.
Proof. induction 1; simpl; lia. Qed.

Lemma sum_Q_perm (l1 l2 : list Q) :
  l1 ≡ₚ l2 → (foldr Qplus 0 l1 == foldr Qplus 0 l2)%Q.
Proof.
  induction 1 as [|x l1 l2 _ IH|x y l|l1 l2 l3 _ IH1 _ IH2]; simpl.
  - reflexivity.
  - by rewrite IH.
  - ring.
  - by rewrite IH1.
Qed.

Section counters.
Context {K : Type} `{Countable K}.

Lemma sum_values_empty : sum_values (∅ : gmap K Z) = 0.
Proof. unfold sum_values. by rewrite map_to_list_empty. Qed.

Lemma sum_values_insert_fresh (k : K) (v : Z) (d : gmap K Z) :
  d !! k = None → sum_values (<[k := v]> d) = v + sum_values d.
Proof.
  intros Hk. unfold sum_values.
  rewrite (sum_Z_perm _ (((k, v) :: map_to_list d).*2)); [reflexivity|].
  by rewrite map_to_list_insert.
Qed.

Lemma sum_values_delete (k : K) (v : Z) (d : gmap K Z) :
  d !! k = Some v → sum_values d = v + sum_values (delete k d).
Proof.
  intros Hk.
  rewrite <- (sum_values_insert_fresh k v (delete k d)) by apply lookup_delete_eq.
  by rewrite insert_delete_id.
Qed.

(** [d[k] += 1] adds one to the total of the values. *)
Lemma sum_values_incr (k : K) (d : gmap K Z) :
  sum_values (incr k d) = sum_values d + 1.
Proof.
  unfold incr. destruct (d !! k) as [v|] eqn:Hk; simpl.
  - rewrite <- insert_delete_eq, sum_values_insert_fresh by apply lookup_delete_eq.
    rewrite (sum_values_delete k v d Hk). lia.
  - rewrite sum_values_insert_fresh by done. lia.
Qed.

Lemma dom_incr (k : K) (d : gmap K Z) : dom (incr k d) = {[k]} ∪ dom d.
Proof. unfold incr. apply dom_insert_L. Qed.
End counters.

Lemma sum_values_type_steps (items : list (Z * role_counts)) (tc : gmap string Z) :
  sum_values (foldl type_step tc items) = sum_values tc + Z.of_nat (length items).
Proof.
  revert tc. induction items as [|item items IH]; intros tc; simpl.
  - lia.
  - rewrite IH. unfold type_step. rewrite sum_values_incr. lia.
Qed.

(** The histogram counts every oxygen of [oxygen_bond_counts] once. *)
Lemma type_counts_total (obc : gmap Z role_counts) :
  sum_values (foldl type_step ∅ (map_to_list obc)) = Z.of_nat (size obc).
Proof.
  rewrite sum_values_type_steps, sum_values_empty, length_map_to_list. lia.
Qed.

Lemma type_counts_empty_iff (obc : gmap Z role_counts) :
  foldl type_step ∅ (map_to_list obc) = ∅ ↔ obc = ∅.
Proof.
  split.
  - intros Hempty. apply map_size_empty_inv.
    pose proof (type_counts_total obc) as Htot.
    rewrite Hempty, sum_values_empty in Htot. lia.
  - intros ->. by rewrite map_to_list_empty.
Qed.

Lemma percent_items_nonzero (total : Z) (items : list (string * Z))
    (acc : gmap string Q) :
  total ≠ 0 →
  NoDup items.*1 →
  percent_items total items acc
  = Ok (list_to_map (prod_map id (percent_of total) <$> items) ∪ acc).
Proof.
  intros Hne. revert acc.
  induction items as [|[label count] items IH]; intros acc Hnd.
  - simpl. by rewrite (left_id_L ∅ (∪)).
  - rewrite fmap_cons in Hnd. apply NoDup_cons in Hnd as [Hfresh Hnd].
    cbn [percent_items]. unfold py_truediv.
    destruct (Z.eqb_spec total 0) as [|_]; [done|].
    rewrite bind_Ok, IH by done. f_equal.
    fold (percent_of total count).
    rewrite fmap_cons. cbn [prod_map id fst snd]. rewrite list_to_map_cons.
    rewrite <- insert_union_l. symmetry. apply insert_union_r.
    apply not_elem_of_list_to_map_1.
    rewrite <- list_fmap_compose. exact Hfresh.
Qed.

Lemma percent_items_map (total : Z) (tc : gmap string Z) :
  total ≠ 0 →
  percent_items total (map_to_list tc) ∅ = Ok (percent_of total <$> tc).
Proof.
  intros Hne. rewrite percent_items_nonzero by (done || apply NoDup_fst_map_to_list).
  by rewrite (right_id_L ∅ (∪)), (list_to_map_fmap (M := gmap string)),
    list_to_map_to_list.
Qed.

Lemma sum_percent_list (total : Z) (counts : list Z) :
  total ≠ 0 →
  (foldr Qplus 0 (percent_of total <$> counts)
   == inject_Z (foldr Z.add 0%Z counts) / inject_Z total * inject_Z 100)%Q.
Proof.
  intros Hne.
  assert (Hq : ¬ (inject_Z total == 0)%Q).
  { intros Hz. apply Hne. unfold Qeq in Hz. simpl in Hz. lia. }
  induction counts as [|c counts IH]; simpl.
  - by field.
  - rewrite IH. unfold percent_of. rewrite inject_Z_plus. by field.
Qed.

Lemma sum_valuesQ_percentages (total : Z) (tc : gmap string Z) :
  total ≠ 0 →
  (sum_valuesQ (percent_of total <$> tc)
   == inject_Z (sum_values tc) / inject_Z total * inject_Z 100)%Q.
Proof.
  intros Hne. unfold sum_valuesQ, sum_values.
  rewrite (sum_Q_perm _ (percent_of total <$> (map_to_list tc).*2)).
  - by apply sum_percent_list.
  - rewrite map_to_list_fmap, <- !list_fmap_compose. reflexivity.
Qed.

Lemma tally_dom (hbonds : list hbond) (st : gmap Z Z * gmap Z Z) :
  dom (foldl tally_step st hbonds).1 = dom st.1 ∪ list_to_set (column0 hbonds)
  ∧ dom (foldl tally_step st hbonds).2 = dom st.2 ∪ list_to_set (column1 hbonds).
Proof.
  revert st. induction hbonds as [|[[acceptor donor] h] hbonds IH]; intros st; simpl.
  - split; set_solver.
  - destruct (IH (incr acceptor st.1, incr donor st.2)) as [IH1 IH2].
    rewrite IH1, IH2. simpl. rewrite !dom_incr. split; set_solver.
Qed.

Lemma role_steps_dom (acceptor_counts donor_counts : gmap Z Z) (oxygens : list Z)
    (obc : gmap Z role_counts) :
  dom (foldl (role_step acceptor_counts donor_counts) obc oxygens)
  = dom obc ∪ list_to_set oxygens.
Proof.
  revert obc. induction oxygens as [|o oxygens IH]; intros obc; simpl.
  - set_solver.
  - rewrite IH. unfold role_step. rewrite dom_insert_L. set_solver.
Qed.

(** The classifier never raises; its first output has the participating
    oxygens as keys, its second is the histogram of the first, and its
    third maps every histogram entry to its percentage. *)
Lemma analyze_bond_counts_Ok (hbonds : list hbond) :
  ∃ obc tc,
    analyze_bond_counts hbonds
    = Ok (obc, tc, percent_of (Z.of_nat (size obc)) <$> tc)
    ∧ tc = foldl type_step ∅ (map_to_list obc)
    ∧ dom obc = participating_oxygens hbonds.
Proof.
  unfold analyze_bond_counts.
  pose proof (tally_dom hbonds (∅, ∅)) as [Hd1 Hd2]. fold (tally hbonds) in Hd1, Hd2.
  destruct (tally hbonds) as [acceptor_counts donor_counts]. simpl in Hd1, Hd2.
  set (obc := foldl (role_step acceptor_counts donor_counts) ∅
                (elements (dom acceptor_counts ∪ dom donor_counts))).
  set (tc := foldl type_step ∅ (map_to_list obc)).
  exists obc, tc. split; [|split; [reflexivity|]].
  - destruct (decide (size obc = 0)%nat) as [Hz|Hnz].
    + assert (Htc : tc = ∅).
      { apply type_counts_empty_iff. by apply map_size_empty_inv. }
      rewrite Htc, map_to_list_empty, fmap_empty. reflexivity.
    + rewrite percent_items_map by lia. reflexivity.
  - unfold obc. rewrite role_steps_dom, list_to_set_elements_L, Hd1, Hd2.
    rewrite !dom_empty_L, <- columns_participating, list_to_set_app_L. set_solver.
Qed.

(** C5. The classifier returns three mappings; the values of
    [type_counts] add up to the number of keys of [oxygen_bond_counts];
    whenever [oxygen_bond_counts] is non-empty, which is the case for
    every non-empty bond collection, the values of [percentages] (taken
    as exact rationals) add up to 100. *)
Theorem analyze_bond_counts_consistent (hbonds : list hbond) :
  ∃ obc tc pct,
    analyze_bond_counts hbonds = Ok (obc, tc, pct)
    ∧ sum_values tc = Z.of_nat (size obc)
    ∧ (obc ≠ ∅ → (sum_valuesQ pct == inject_Z 100)%Q)
    ∧ (hbonds ≠ [] → obc ≠ ∅).
Proof.
  destruct (analyze_bond_counts_Ok hbonds) as (obc & tc & Heq & Htc & Hdom).
  exists obc, tc, (percent_of (Z.of_nat (size obc)) <$> tc).
  assert (Hsum : sum_values tc = Z.of_nat (size obc)).
  { rewrite Htc. apply type_counts_total. }
  split; [exact Heq|]. split; [exact Hsum|]. split.
  - intros Hne. apply map_size_non_empty_iff in Hne.
    rewrite sum_valuesQ_percentages by lia. rewrite Hsum.
    assert (Hq : ¬ (inject_Z (Z.of_nat (size obc)) == 0)%Q).
    { intros Hz. unfold Qeq in Hz. simpl in Hz. lia. }
    by field.
  - intros Hne Hobc. pose proof (participating_oxygens_bounds hbonds Hne) as [Hpos _].
    rewrite <- Hdom, Hobc, dom_empty_L, size_empty in Hpos. lia.
Qed.

Lemma analyze_bond_counts_consistent_witness :
  ∃ obc tc pct,
    analyze_bond_counts three_bonds = Ok (obc, tc, pct)
    ∧ sum_values tc = Z.of_nat (size obc)
    ∧ (sum_valuesQ pct == inject_Z 100)%Q.
Proof.
  destruct (analyze_bond_counts_consistent three_bonds)
    as (obc & tc & pct & Heq & Hsum & Hpct & Hne).
  exists obc, tc, pct. split; [exact Heq|]. split; [exact Hsum|].
  apply Hpct, Hne. discriminate.
Defined.

(** ** The scenarios of the specification, evaluated *)

Example chain_scenario :
  main chain
  = Ok {| average_hbonds := PyFloat (2 # 2);
          oxygen_bond_counts :=
            {[ 0 := {| accepting := 0; donating := 1 |};
               3 := {| accepting := 1; donating := 0 |} ]};
          type_counts := {[ "A0D1"%string := 1; "A1D0"%string := 1 ]};
          percentages := {[ "A0D1"%string := (100 # 2)%Q; "A1D0"%string := (100 # 2)%Q ]} |}.
Proof. vm_compute. reflexivity. Qed.

Example cutoff_boundaries :
  find_hydrogen_bonds_default at_distance_cutoff [water_at 0; water_at 1] = []
  ∧ find_hydrogen_bonds_default at_angle_cutoff [water_at 0; water_at 1] = []
  ∧ find_hydrogen_bonds_default inside_cutoffs [water_at 0; water_at 1]
    = [(3, 0, 1); (3, 0, 2); (0, 3, 4); (0, 3, 5)].
Proof. repeat split; vm_compute; reflexivity. Qed.


(** * Further properties of the code *)

(** ** [main]: outcomes *)

Lemma triplets_decide (atoms : Atoms) (n : nat) :
  (∀ i, (i < n)%nat → triplet_ok atoms i = true)
  ∨ (∃ i, (i < n)%nat ∧ triplet_ok atoms i = false).
Proof.
  induction n as [|n [IH | (i & Hi & Hbad)]].
  - left. intros i Hi. lia.
  - destruct (triplet_ok atoms n) eqn:Hn.
    + left. intros i Hi. destruct (decide (i = n)) as [->|]; [done|]. apply IH. lia.
    + right. exists n. split; [lia|done].
  - right. exists i. split; [lia|done].
Qed.

Lemma calculate_average_hbonds_total (hbonds : list hbond) :
  ∃ avg_hbonds, calculate_average_hbonds hbonds = Ok avg_hbonds.
Proof.
  destruct hbonds as [|b hbonds]; [by eexists|].
  rewrite calculate_average_hbonds_nonempty by done. by eexists.
Qed.

Lemma main_after_build (atoms : Atoms) (water_mols : list water) :
  build_water_molecules atoms = Ok water_mols →
  ∃ avg_hbonds obc tc pct,
    calculate_average_hbonds (find_hydrogen_bonds_default atoms water_mols) = Ok avg_hbonds
    ∧ analyze_bond_counts (find_hydrogen_bonds_default atoms water_mols) = Ok (obc, tc, pct)
    ∧ main atoms = Ok {| average_hbonds := avg_hbonds;
                         oxygen_bond_counts := obc;
                         type_counts := tc;
                         percentages := pct |}.
Proof.
  intros Hb.
  destruct (calculate_average_hbonds_total (find_hydrogen_bonds_default atoms water_mols))
    as [avg Havg].
  destruct (analyze_bond_counts_Ok (find_hydrogen_bonds_default atoms water_mols))
    as (obc & tc & Han & _).
  exists avg, obc, tc, (percent_of (Z.of_nat (size obc)) <$> tc).
  split; [done|]. split; [done|].
  unfold main. rewrite Hb, bind_Ok. cbv zeta. rewrite Havg, bind_Ok, Han. reflexivity.
Qed.


(** ** The builder: what it reads and what it builds *)

(** The builder only looks at the plain (non minimum-image) distances
    between atoms of complete triplets: two inputs with the same number
    of complete triplets and the same such distances give the same
    outcome, whatever their trailing atoms and other geometry are. *)
Theorem build_water_molecules_reads (atoms atoms' : Atoms) :
  (len atoms / 3 = len atoms' / 3)%nat →
  (∀ x y, 0 ≤ x < 3 * Z.of_nat (len atoms / 3) →
          0 ≤ y < 3 * Z.of_nat (len atoms / 3) →
          get_distance atoms x y false = get_distance atoms' x y false) →
  build_water_molecules atoms = build_water_molecules atoms'.
Proof.
  intros Hlen Hdist.
  assert (Hsame : ∀ i, (i < len atoms / 3)%nat → triplet_ok atoms i = triplet_ok atoms' i).
  { intros i Hi. unfold triplet_ok. rewrite !Hdist by lia. reflexivity. }
  destruct (triplets_decide atoms (len atoms / 3)) as [Hok | (i & Hi & Hbad)].
  - rewrite (build_water_molecules_ok atoms Hok).
    rewrite (build_water_molecules_ok atoms'), Hlen; [done|].
    intros i Hi. rewrite <- Hlen in Hi. rewrite <- Hsame by done. by apply Hok.
  - rewrite (build_water_molecules_bad atoms) by eauto.
    rewrite (build_water_molecules_bad atoms'); [done|].
    exists i. rewrite <- Hlen, <- Hsame by done. done.
Qed.

Lemma build_water_molecules_reads_witness :
  build_water_molecules seven = build_water_molecules eight.
Proof.
  apply (build_water_molecules_reads seven eight).
  - reflexivity.
  - intros x y Hx Hy. change (len seven / 3)%nat with 2%nat in Hx, Hy.
    unfold seven, eight. cbn [get_distance].
    rewrite bool_decide_eq_false_2 by lia. reflexivity.
Defined.

(** In a built list every atom index below [3 * (N // 3)] is owned by
    exactly one molecule, the one at position [a // 3]: as its oxygen
    when [a] is a multiple of 3 and as one of its hydrogens otherwise. *)
Theorem built_atom_owner (atoms : Atoms) (water_mols : list water) (a : Z) :
  build_water_molecules atoms = Ok water_mols →
  0 ≤ a < 3 * Z.of_nat (len atoms / 3) →
  (∃ m, water_mols !! Z.to_nat (a `div` 3) = Some m
        ∧ (a `mod` 3 = 0 → O m = a ∧ a ∉ H m)
        ∧ (a `mod` 3 ≠ 0 → O m ≠ a ∧ a ∈ H m))
  ∧ (∀ i m, water_mols !! i = Some m → O m = a ∨ a ∈ H m → i = Z.to_nat (a `div` 3)).
Proof.
  intros Hb Ha. apply build_water_molecules_Ok_inv in Hb as ->. split.
  - exists (water_at (Z.to_nat (a `div` 3))). split.
    + apply built_lookup. apply Nat2Z.inj_lt. rewrite Z2Nat.id by (apply Z.div_pos; lia).
      apply Z.div_lt_upper_bound; lia.
    + assert (Hq : Z.of_nat (Z.to_nat (a `div` 3)) = a `div` 3).
      { apply Z2Nat.id, Z.div_pos; lia. }
      pose proof (Z.div_mod a 3 ltac:(lia)) as Hdm.
      pose proof (Z.mod_pos_bound a 3 ltac:(lia)) as Hmod.
      cbn [O H water_at]. rewrite Hq. split.
      * intros Hz. split; [lia|].
        intros [?|Hin]%elem_of_cons; [lia|]. apply list_elem_of_singleton in Hin. lia.
      * intros Hnz. split; [lia|].
        destruct (decide (a `mod` 3 = 1)).
        -- replace a with (3 * a `div` 3 + 1) at 1 by lia. left.
        -- replace a with (3 * a `div` 3 + 2) at 1 by lia. right. left.
  - intros i m Hm Hown.
    apply list_lookup_fmap_Some in Hm as (i' & -> & Hi).
    apply lookup_seq in Hi as [-> Hi]. cbn [O H water_at Nat.add] in Hown.
    assert (Hcases : a = 3 * Z.of_nat i ∨ a = 3 * Z.of_nat i + 1 ∨ a = 3 * Z.of_nat i + 2).
    { destruct Hown as [Hown | Hown]; [lia|].
      apply elem_of_cons in Hown as [->|Hown]; [lia|].
      apply list_elem_of_singleton in Hown. lia. }
    assert (Hdiv : a `div` 3 = Z.of_nat i).
    { symmetry. apply (Z.div_unique a 3 (Z.of_nat i) (a - 3 * Z.of_nat i)); lia. }
    rewrite Hdiv. by rewrite Nat2Z.id.
Qed.

Lemma built_atom_owner_witness :
  ∃ m, chain_mols !! Z.to_nat (7 `div` 3) = Some m
       ∧ (7 `mod` 3 = 0 → O m = 7 ∧ 7 ∉ H m)
       ∧ (7 `mod` 3 ≠ 0 → O m ≠ 7 ∧ 7 ∈ H m).
Proof.
  apply (built_atom_owner chain chain_mols 7).
  - vm_compute. reflexivity.
  - vm_compute. split; [discriminate | reflexivity].
Defined.

(** ** The detector: duplicates, size and cut-offs *)

Lemma NoDup_enumerate_from {A : Type} (l : list A) (start : nat) :
  NoDup (enumerate_from start l).
Proof.
  revert start. induction l as [|x l IH]; intros start; simpl; [constructor|].
  constructor; [|apply IH].
  intros Hin. apply elem_of_enumerate_from in Hin as [Hle _]. lia.
Qed.

Lemma NoDup_emitted_by_pair (atoms : Atoms) (distance_cutoff angle_cutoff : pyfloat)
    (i j : nat) (donor acceptor : water) :
  NoDup (H donor) →
  NoDup (emitted_by_pair atoms distance_cutoff angle_cutoff i donor j acceptor).
Proof.
  intros Hnd. unfold emitted_by_pair.
  destruct (decide (i = j)); [constructor|].
  destruct (flt _ distance_cutoff); [|constructor].
  apply NoDup_fmap_2; [|by apply NoDup_filter].
  intros h1 h2 Heq. by inversion Heq.
Qed.

(** When the molecules have pairwise different oxygens and no molecule
    lists a hydrogen twice, as in every built list, the returned bond
    list has no repeated tuple. *)
Theorem find_hydrogen_bonds_NoDup (atoms : Atoms) (water_mols : list water)
    (distance_cutoff angle_cutoff : pyfloat) :
  NoDup (O <$> water_mols) →
  (∀ m, m ∈ water_mols → NoDup (H m)) →
  NoDup (find_hydrogen_bonds atoms water_mols distance_cutoff angle_cutoff).
Proof.
  intros HndO HndH. rewrite find_hydrogen_bonds_by_pairs.
  unfold bonds_in_iteration_order. apply NoDup_bind.
  - intros [i1 d1] [i2 d2] b Hi1 Hi2 Hb1 Hb2.
    apply elem_of_enumerate in Hi1, Hi2.
    apply list_elem_of_bind in Hb1 as ([j1 a1] & Hb1 & _).
    apply list_elem_of_bind in Hb2 as ([j2 a2] & Hb2 & _).
    apply elem_of_emitted_by_pair in Hb1 as (_ & _ & h1 & _ & _ & ->).
    apply elem_of_emitted_by_pair in Hb2 as (_ & _ & h2 & _ & _ & Heq).
    injection Heq as _ HO _.
    by destruct (NoDup_fmap_lookup_inj O water_mols i1 i2 d1 d2 HndO Hi1 Hi2 HO) as [-> ->].
  - intros [i donor] Hi. apply elem_of_enumerate in Hi.
    apply NoDup_bind.
    + intros [j1 a1] [j2 a2] b Hj1 Hj2 Hb1 Hb2.
      apply elem_of_enumerate in Hj1, Hj2.
      apply elem_of_emitted_by_pair in Hb1 as (_ & _ & h1 & _ & _ & ->).
      apply elem_of_emitted_by_pair in Hb2 as (_ & _ & h2 & _ & _ & Heq).
      injection Heq as HO _.
      by destruct (NoDup_fmap_lookup_inj O water_mols j1 j2 a1 a2 HndO Hj1 Hj2 HO) as [-> ->].
    + intros [j acceptor] _. apply NoDup_emitted_by_pair, HndH.
      by apply list_elem_of_lookup_2 in Hi.
    + apply NoDup_enumerate_from.
  - apply NoDup_enumerate_from.
Qed.

Lemma NoDup_built_hydrogens (n : nat) (m : water) :
  m ∈ water_at <$> seq 0 n → NoDup (H m).
Proof.
  intros (i & -> & _)%list_elem_of_fmap. cbn [H water_at].
  apply NoDup_cons. split; [|apply NoDup_singleton].
  intros Hin%list_elem_of_singleton. lia.
Qed.

Lemma find_hydrogen_bonds_NoDup_witness :
  NoDup (find_hydrogen_bonds inside_cutoffs (water_at <$> seq 0 2)
           default_distance_cutoff default_angle_cutoff).
Proof.
  apply (find_hydrogen_bonds_NoDup inside_cutoffs (water_at <$> seq 0 2)).
  - apply NoDup_built_oxygens.
  - apply NoDup_built_hydrogens.
Defined.

Lemma length_emitted_by_pair (atoms : Atoms) (distance_cutoff angle_cutoff : pyfloat)
    (i j : nat) (donor acceptor : water) :
  (length (emitted_by_pair atoms distance_cutoff angle_cutoff i donor j acceptor)
   ≤ if decide (i = j) then 0 else length (H donor))%nat.
Proof.
  unfold emitted_by_pair. destruct (decide (i = j)); [done|].
  destruct (flt _ distance_cutoff); simpl; [|lia].
  rewrite length_fmap. apply length_filter.
Qed.

Lemma length_acceptor_bind (atoms : Atoms) (distance_cutoff angle_cutoff : pyfloat)
    (i : nat) (donor : water) (k : nat) (l : list water) (start : nat) :
  (length (H donor) ≤ k)%nat →
  (length ('(j, acceptor) ← enumerate_from start l;
           emitted_by_pair atoms distance_cutoff angle_cutoff i donor j acceptor)
   ≤ k * (length l - (if bool_decide (start ≤ i < start + length l)%nat then 1 else 0)))%nat.
Proof.
  intros Hk. revert start. induction l as [|acceptor l IH]; intros start.
  - simpl. lia.
  - cbn [enumerate_from]. rewrite bind_cons, length_app. cbn [length].
    pose proof (length_emitted_by_pair atoms distance_cutoff angle_cutoff
                  i start donor acceptor) as Hhead.
    specialize (IH (S start)).
    destruct (decide (i = start)) as [->|Hne].
    + rewrite bool_decide_eq_false_2 in IH by lia.
      rewrite bool_decide_eq_true_2 by lia. lia.
    + destruct (decide (S start ≤ i < S start + length l)%nat) as [Hin|Hout].
      * rewrite bool_decide_eq_true_2 in IH by done.
        rewrite bool_decide_eq_true_2 by lia. nia.
      * rewrite bool_decide_eq_false_2 in IH by done.
        rewrite bool_decide_eq_false_2 by lia. nia.
Qed.

Lemma length_bind_le {A B : Type} (f : A → list B) (l : list A) (bound : nat) :
  (∀ x, x ∈ l → (length (f x) ≤ bound)%nat) →
  (length (l ≫= f) ≤ length l * bound)%nat.
Proof.
  induction l as [|x l IH]; intros Hf; [simpl; lia|].
  rewrite bind_cons, length_app. cbn [length].
  assert (length (f x) ≤ bound)%nat by (apply Hf; left).
  assert (length (l ≫= f) ≤ length l * bound)%nat by (apply IH; intros; apply Hf; by right).
  lia.
Qed.

Lemma length_enumerate_from {A : Type} (l : list A) (start : nat) :
  length (enumerate_from start l) = length l.
Proof. revert start. induction l as [|x l IH]; intros start; simpl; [done|]. by rewrite IH. Qed.

(** With [M] molecules of at most [k] hydrogens each, the detector
    returns at most [k * M * (M - 1)] bonds: at most [k] for each of the
    [M * (M - 1)] ordered pairs of different positions. *)
Theorem find_hydrogen_bonds_length (atoms : Atoms) (water_mols : list water)
    (distance_cutoff angle_cutoff : pyfloat) (k : nat) :
  (∀ m, m ∈ water_mols → (length (H m) ≤ k)%nat) →
  (length (find_hydrogen_bonds atoms water_mols distance_cutoff angle_cutoff)
   ≤ k * (length water_mols * (length water_mols - 1)))%nat.
Proof.
  intros Hk. rewrite find_hydrogen_bonds_by_pairs. unfold bonds_in_iteration_order.
  etrans; [apply (length_bind_le _ _ (k * (length water_mols - 1)))|].
  - intros [i donor] Hi. apply elem_of_enumerate in Hi.
    pose proof (lookup_lt_Some _ _ _ Hi) as Hlt.
    etrans; [apply (length_acceptor_bind _ _ _ i donor k water_mols 0)|].
    + apply Hk. by apply list_elem_of_lookup_2 in Hi.
    + rewrite bool_decide_eq_true_2 by lia. done.
  - unfold enumerate. rewrite length_enumerate_from. lia.
Qed.

Lemma find_hydrogen_bonds_length_witness :
  (length (find_hydrogen_bonds inside_cutoffs [water_at 0; water_at 1]
             default_distance_cutoff default_angle_cutoff)
   ≤ 2 * (2 * (2 - 1)))%nat.
Proof.
  apply (find_hydrogen_bonds_length inside_cutoffs [water_at 0; water_at 1]
           default_distance_cutoff default_angle_cutoff 2).
  intros m Hm. apply elem_of_cons in Hm as [->|Hm]; [simpl; lia|].
  apply list_elem_of_singleton in Hm as ->. simpl. lia.
Defined.

Lemma flt_fle_trans (x c c' : pyfloat) :
  flt x c = true → fle c c' = true → flt x c' = true.
Proof.
  unfold fle.
  destruct x as [p| | |], c as [q| | |], c' as [r| | |]; simpl; try done.
  intros Hpq Hqr. apply Qltb_lt in Hpq. apply Qltb_lt.
  apply orb_true_iff in Hqr as [Hqr | Hqr].
  - apply Qltb_lt in Hqr. by eapply Qlt_trans.
  - apply Qeq_bool_iff in Hqr. by rewrite <- Hqr.
Qed.

Lemma sublist_filter_impl {A : Type} (P Q : A → Prop)
    `{∀ x, Decision (P x)} `{∀ x, Decision (Q x)} (l : list A) :
  (∀ x, P x → Q x) → filter P l `sublist_of` filter Q l.
Proof.
  intros HPQ. induction l as [|x l IH]; [done|].
  rewrite !filter_cons. destruct (decide (P x)) as [HP|HnP].
  - rewrite decide_True by auto. by apply sublist_skip.
  - destruct (decide (Q x)); [by apply sublist_cons | done].
Qed.

Lemma sublist_bind_pointwise {A B : Type} (f g : A → list B) (l : list A) :
  (∀ x, f x `sublist_of` g x) → (l ≫= f) `sublist_of` (l ≫= g).
Proof.
  intros Hfg. induction l as [|x l IH]; [done|].
  rewrite !bind_cons. by apply sublist_app.
Qed.

(** Loosening the cut-offs only adds bonds: with [distance_cutoff <=
    distance_cutoff'] and [angle_cutoff <= angle_cutoff'] the bonds
    found with the tighter pair form a sublist, in the same order, of
    those found with the looser pair. *)
Theorem find_hydrogen_bonds_monotone (atoms : Atoms) (water_mols : list water)
    (distance_cutoff angle_cutoff distance_cutoff' angle_cutoff' : pyfloat) :
  fle distance_cutoff distance_cutoff' = true →
  fle angle_cutoff angle_cutoff' = true →
  find_hydrogen_bonds atoms water_mols distance_cutoff angle_cutoff
  `sublist_of` find_hydrogen_bonds atoms water_mols distance_cutoff' angle_cutoff'.
Proof.
  intros Hd Ha. rewrite !find_hydrogen_bonds_by_pairs. unfold bonds_in_iteration_order.
  apply sublist_bind_pointwise. intros [i donor].
  apply sublist_bind_pointwise. intros [j acceptor].
  unfold emitted_by_pair. destruct (decide (i = j)); [done|].
  destruct (flt _ distance_cutoff) eqn:Hclose; [|apply sublist_nil_l].
  rewrite (flt_fle_trans _ _ _ Hclose Hd).
  apply fmap_sublist, sublist_filter_impl.
  intros h Hh. by apply (flt_fle_trans _ _ _ Hh Ha).
Qed.

Lemma find_hydrogen_bonds_monotone_witness :
  find_hydrogen_bonds chain chain_mols (Finite (2 # 1)) (Finite (5 # 1))
  `sublist_of` find_hydrogen_bonds chain chain_mols
                 default_distance_cutoff default_angle_cutoff.
Proof.
  apply (find_hydrogen_bonds_monotone chain chain_mols); reflexivity.
Defined.

(** ** [main] on an input without a complete triplet *)

(** An input of fewer than three atoms holds no molecule: nothing is
    checked, no geometry is read, and [main] returns the zero average
    and three empty mappings instead of failing. *)
Theorem main_short_input (atoms : Atoms) :
  (len atoms < 3)%nat →
  build_water_molecules atoms = Ok []
  ∧ main atoms = Ok {| average_hbonds := PyInt 0;
                       oxygen_bond_counts := ∅;
                       type_counts := ∅;
                       percentages := ∅ |}.
Proof.
  intros Hlen.
  assert (Hb : build_water_molecules atoms = Ok []).
  { unfold build_water_molecules. by rewrite Nat.div_small. }
  split; [exact Hb|]. unfold main. rewrite Hb. reflexivity.
Qed.

Lemma main_short_input_witness :
  build_water_molecules two_atoms = Ok []
  ∧ main two_atoms = Ok {| average_hbonds := PyInt 0;
                           oxygen_bond_counts := ∅;
                           type_counts := ∅;
                           percentages := ∅ |}.
Proof. apply (main_short_input two_atoms). simpl. lia. Defined.

(** ** The classifier: what the three mappings hold *)

Lemma get0_incr {K : Type} `{Countable K} (k o : K) (d : gmap K Z) :
  get0 (incr k d) o = get0 d o + (if decide (k = o) then 1 else 0).
Proof.
  unfold get0, incr. destruct (decide (k = o)) as [->|Hne].
  - by rewrite lookup_insert_eq.
  - rewrite lookup_insert_ne by done. lia.
Qed.

Lemma get0_empty {K : Type} `{Countable K} (o : K) : get0 (∅ : gmap K Z) o = 0.
Proof. unfold get0. by rewrite lookup_empty. Qed.

Lemma tally_get0 (hbonds : list hbond) (st : gmap Z Z * gmap Z Z) (o : Z) :
  get0 (foldl tally_step st hbonds).1 o = get0 st.1 o + accepted_by o hbonds
  ∧ get0 (foldl tally_step st hbonds).2 o = get0 st.2 o + donated_by o hbonds.
Proof.
  revert st. induction hbonds as [|[[acceptor donor] h] hbonds IH]; intros st.
  - unfold accepted_by, donated_by. simpl. lia.
  - cbn [foldl tally_step].
    destruct (IH (incr acceptor st.1, incr donor st.2)) as [IH1 IH2].
    rewrite IH1, IH2. cbn [fst snd]. rewrite !get0_incr.
    unfold accepted_by, donated_by. rewrite !filter_cons. cbn [fst snd].
    split.
    + destruct (decide (acceptor = o)); simpl; lia.
    + destruct (decide (donor = o)); simpl; lia.
Qed.

Lemma role_steps_lookup (acceptor_counts donor_counts : gmap Z Z) (oxygens : list Z)
    (obc : gmap Z role_counts) (o : Z) :
  foldl (role_step acceptor_counts donor_counts) obc oxygens !! o
  = if decide (o ∈ oxygens)
    then Some {| accepting := get0 acceptor_counts o; donating := get0 donor_counts o |}
    else obc !! o.
Proof.
  revert obc. induction oxygens as [|x oxygens IH]; intros obc; cbn [foldl].
  - rewrite decide_False; [done | apply not_elem_of_nil].
  - rewrite IH. destruct (decide (o ∈ oxygens)) as [Hin|Hnin].
    + rewrite decide_True; [done | by right].
    + unfold role_step. destruct (decide (x = o)) as [->|Hne].
      * rewrite lookup_insert_eq, decide_True; [done | by left].
      * rewrite lookup_insert_ne by done. rewrite decide_False; [done|].
        intros [?|?]%elem_of_cons; congruence.
Qed.

(** The classifier's outputs in closed form. *)
Lemma analyze_bond_counts_roles (hbonds : list hbond) :
  ∃ obc,
    analyze_bond_counts hbonds
    = Ok (obc, foldl type_step ∅ (map_to_list obc),
          percent_of (Z.of_nat (size obc)) <$> foldl type_step ∅ (map_to_list obc))
    ∧ dom obc = participating_oxygens hbonds
    ∧ ∀ o, obc !! o
           = if decide (o ∈ participating_oxygens hbonds)
             then Some {| accepting := accepted_by o hbonds;
                          donating := donated_by o hbonds |}
             else None.
Proof.
  destruct (analyze_bond_counts_Ok hbonds) as (obc & tc & Heq & -> & Hdom).
  exists obc. split; [exact Heq|]. split; [exact Hdom|].
  intros o. revert Heq. unfold analyze_bond_counts.
  pose proof (tally_get0 hbonds (∅, ∅) o) as [Ha Hd]. fold (tally hbonds) in Ha, Hd.
  pose proof (tally_dom hbonds (∅, ∅)) as [Hd1 Hd2]. fold (tally hbonds) in Hd1, Hd2.
  destruct (tally hbonds) as [acceptor_counts donor_counts]. cbn [fst snd] in *.
  destruct (percent_items _ _ _); [|discriminate]. cbn [bind].
  intros [= <- _]. rewrite role_steps_lookup.
  assert (Hset : o ∈ elements (dom acceptor_counts ∪ dom donor_counts)
                 ↔ o ∈ participating_oxygens hbonds).
  { rewrite elem_of_elements, Hd1, Hd2, !dom_empty_L, <- columns_participating,
      list_to_set_app_L. set_solver. }
  rewrite get0_empty, Z.add_0_l in Ha, Hd.
  destruct (decide (o ∈ elements _)) as [Hin|Hnin].
  - rewrite decide_True by by apply Hset. by rewrite Ha, Hd.
  - rewrite decide_False by (by rewrite <- Hset). apply lookup_empty.
Qed.

(** *** Labels *)

Lemma pretty_N_go_free_of_D (x : N) (s : string) :
  free_of "D"%char s → free_of "D"%char (pretty_N_go x s).
Proof.
  revert s. induction (N.lt_wf_0 x) as [x _ IH]; intros s Hs.
  assert (x = 0 ∨ 0 < x)%N as [->|Hpos] by lia.
  - by rewrite pretty_N_go_0.
  - rewrite pretty_N_go_step by done. apply IH; [by apply N.div_lt|].
    split; [|done]. unfold pretty_N_char. by repeat case_match.
Qed.

Lemma pretty_N_free_of_D (x : N) : free_of "D"%char (pretty x).
Proof.
  unfold pretty, pretty_N. case_decide.
  - simpl. split; [discriminate|done].
  - by apply pretty_N_go_free_of_D.
Qed.

Lemma pretty_Z_free_of_D (z : Z) : free_of "D"%char (pretty z).
Proof.
  unfold pretty, pretty_Z. destruct z as [|p|p].
  - simpl. split; [discriminate|done].
  - apply pretty_N_free_of_D.
  - simpl. split; [discriminate|]. apply pretty_N_free_of_D.
Qed.

Lemma append_separator_inj (c : ascii) (s1 s2 t1 t2 : string) :
  free_of c s1 → free_of c s2 →
  s1 +:+ String c t1 = s2 +:+ String c t2 → s1 = s2 ∧ t1 = t2.
Proof.
  revert s2. induction s1 as [|a s1 IH]; intros [|b s2] H1 H2 Heq; simpl in *.
  - by injection Heq as ->.
  - injection Heq as <- _. by destruct H2.
  - injection Heq as -> _. by destruct H1.
  - injection Heq as -> Heq. destruct H1 as [_ H1], H2 as [_ H2].
    destruct (IH s2 H1 H2 Heq) as [-> ->]. done.
Qed.

Lemma bond_type_eq_inv (c1 c2 : role_counts) :
  bond_type c1 = bond_type c2 → c1 = c2.
Proof.
  destruct c1 as [a1 d1], c2 as [a2 d2]. unfold bond_type. cbn [accepting donating].
  intros Heq. injection Heq as Heq.
  apply append_separator_inj in Heq as [Ha Hd]; [|apply pretty_Z_free_of_D..].
  apply (inj pretty) in Ha, Hd. by subst.
Qed.

(** The label ["A{n}D{m}"] determines the pair [(n, m)]: two different
    role-count pairs never share a histogram bucket. *)
Theorem bond_type_inj (c1 c2 : role_counts) :
  bond_type c1 = bond_type c2 →
  accepting c1 = accepting c2 ∧ donating c1 = donating c2.
Proof. intros Heq. by rewrite (bond_type_eq_inv c1 c2 Heq). Qed.

Lemma bond_type_inj_witness :
  accepting {| accepting := 1; donating := 12 |} = 1
  ∧ donating {| accepting := 1; donating := 12 |} = 12.
Proof.
  apply (bond_type_inj {| accepting := 1; donating := 12 |}
           {| accepting := 1; donating := 12 |}).
  reflexivity.
Defined.

(** *** Role counts *)

Lemma filter_length_pos {A : Type} (P : A → Prop) `{∀ x, Decision (P x)}
    (l : list A) (x : A) :
  x ∈ l → P x → (0 < length (filter P l))%nat.
Proof.
  intros Hin HP.
  assert (Hf : x ∈ filter P l) by by apply list_elem_of_filter.
  destruct (filter P l); [by apply elem_of_nil in Hf | simpl; lia].
Qed.

Lemma filter_length_zero {A : Type} (P : A → Prop) `{∀ x, Decision (P x)} (l : list A) :
  (∀ x, x ∈ l → ¬ P x) → length (filter P l) = 0%nat.
Proof.
  intros Hno. destruct (filter P l) as [|x l'] eqn:Hf; [done|].
  assert (Hin : x ∈ filter P l) by (rewrite Hf; left).
  apply list_elem_of_filter in Hin as [HP Hin]. by destruct (Hno x Hin).
Qed.

Lemma elem_of_participating_oxygens (o : Z) (hbonds : list hbond) :
  o ∈ participating_oxygens hbonds ↔ ∃ b, b ∈ hbonds ∧ (b.1.1 = o ∨ b.1.2 = o).
Proof.
  unfold participating_oxygens. rewrite elem_of_union_list. split.
  - intros (X & HX & Ho). apply list_elem_of_fmap in HX as (b & -> & Hb).
    exists b. split; [done|]. set_solver.
  - intros (b & Hb & Ho). exists {[ b.1.1; b.1.2 ]}. split; [|set_solver].
    apply list_elem_of_fmap. by exists b.
Qed.

Lemma roles_of_participant (o : Z) (hbonds : list hbond) :
  o ∈ participating_oxygens hbonds →
  0 ≤ accepted_by o hbonds ∧ 0 ≤ donated_by o hbonds
  ∧ 1 ≤ accepted_by o hbonds + donated_by o hbonds.
Proof.
  intros (b & Hb & Ho)%elem_of_participating_oxygens. unfold accepted_by, donated_by.
  destruct Ho as [Ho | Ho].
  - pose proof (filter_length_pos (λ b : hbond, b.1.1 = o) hbonds b Hb Ho). lia.
  - pose proof (filter_length_pos (λ b : hbond, b.1.2 = o) hbonds b Hb Ho). lia.
Qed.

Lemma roles_of_stranger (o : Z) (hbonds : list hbond) :
  o ∉ participating_oxygens hbonds →
  accepted_by o hbonds = 0 ∧ donated_by o hbonds = 0.
Proof.
  intros Hno. unfold accepted_by, donated_by.
  rewrite !filter_length_zero; [done|..]; intros b Hb Ho; apply Hno;
    apply elem_of_participating_oxygens; exists b; auto.
Qed.

(** [oxygen_bond_counts] has exactly the oxygens that occur in some
    bond as keys; the entry of such an oxygen holds the number of bonds
    in which it is the acceptor and the number in which it is the donor,
    and these two numbers are not both zero. *)
Theorem analyze_bond_counts_role_counts (hbonds : list hbond) :
  ∃ obc tc pct,
    analyze_bond_counts hbonds = Ok (obc, tc, pct)
    ∧ dom obc = participating_oxygens hbonds
    ∧ ∀ o,
        (o ∈ participating_oxygens hbonds →
         obc !! o = Some {| accepting := accepted_by o hbonds;
                            donating := donated_by o hbonds |}
         ∧ 1 ≤ accepted_by o hbonds + donated_by o hbonds)
        ∧ (o ∉ participating_oxygens hbonds → obc !! o = None).
Proof.
  destruct (analyze_bond_counts_roles hbonds) as (obc & Heq & Hdom & Hobc).
  eexists obc, _, _. split; [exact Heq|]. split; [exact Hdom|].
  intros o. specialize (Hobc o). split.
  - intros Hin. rewrite decide_True in Hobc by done. split; [done|].
    by apply roles_of_participant.
  - intros Hnin. by rewrite decide_False in Hobc.
Qed.

(** *** Conservation of bonds *)

Lemma sum_values_insert {K : Type} `{Countable K} (k : K) (v : Z) (d : gmap K Z) :
  sum_values (<[k := v]> d) = sum_values d - get0 d k + v.
Proof.
  unfold get0. destruct (d !! k) as [w|] eqn:Hk; simpl.
  - rewrite <- insert_delete_eq, sum_values_insert_fresh by apply lookup_delete_eq.
    rewrite (sum_values_delete k w d Hk). lia.
  - rewrite sum_values_insert_fresh by done. lia.
Qed.

Lemma sum_values_zero {K : Type} `{Countable K} (d : gmap K Z) :
  (∀ o, get0 d o = 0) → sum_values d = 0.
Proof.
  induction d as [|k v d Hk IHd] using map_ind; intros Hd; [apply sum_values_empty|].
  pose proof (Hd k) as Hv. unfold get0 in Hv. rewrite lookup_insert_eq in Hv.
  simpl in Hv. subst v. rewrite sum_values_insert_fresh by done.
  rewrite IHd; [done|]. intros o.
  destruct (decide (o = k)) as [->|Hne].
  - unfold get0. by rewrite Hk.
  - specialize (Hd o). unfold get0 in *. by rewrite lookup_insert_ne in Hd.
Qed.

Lemma sum_values_counts (f : hbond → Z) (hbonds : list hbond) (d : gmap Z Z) :
  (∀ o, get0 d o = Z.of_nat (length (filter (λ b, f b = o) hbonds))) →
  sum_values d = Z.of_nat (length hbonds).
Proof.
  revert d. induction hbonds as [|b hbonds IH]; intros d Hd.
  - by apply sum_values_zero.
  - assert (Hrest : sum_values (<[f b := get0 d (f b) - 1]> d)
                    = Z.of_nat (length hbonds)).
    { apply IH. intros o. specialize (Hd o). rewrite filter_cons in Hd.
      destruct (decide (f b = o)) as [->|Hne].
      - unfold get0 at 1. rewrite lookup_insert_eq. simpl in *. lia.
      - unfold get0 at 1. rewrite lookup_insert_ne by done. exact Hd. }
    rewrite sum_values_insert in Hrest. simpl. lia.
Qed.

Lemma get0_fmap_roles (field : role_counts → Z) (obc : gmap Z role_counts) (o : Z) :
  get0 (field <$> obc) o = default 0 (field <$> obc !! o).
Proof. unfold get0. by rewrite lookup_fmap. Qed.

(** Every bond is counted once as accepted and once as donated: over
    the oxygens of [oxygen_bond_counts], the accepting counts add up to
    the number of bonds, and so do the donating counts. *)
Theorem analyze_bond_counts_conservation (hbonds : list hbond) :
  ∃ obc tc pct,
    analyze_bond_counts hbonds = Ok (obc, tc, pct)
    ∧ sum_values (accepting <$> obc) = Z.of_nat (length hbonds)
    ∧ sum_values (donating <$> obc) = Z.of_nat (length hbonds).
Proof.
  destruct (analyze_bond_counts_roles hbonds) as (obc & Heq & _ & Hobc).
  eexists obc, _, _. split; [exact Heq|].
  split.
  - apply (sum_values_counts (λ b, b.1.1)). intros o.
    rewrite get0_fmap_roles, Hobc. destruct (decide _) as [Hin|Hnin]; [done|].
    simpl. by destruct (roles_of_stranger o hbonds Hnin) as [<- _].
  - apply (sum_values_counts (λ b, b.1.2)). intros o.
    rewrite get0_fmap_roles, Hobc. destruct (decide _) as [Hin|Hnin]; [done|].
    simpl. by destruct (roles_of_stranger o hbonds Hnin) as [_ <-].
Qed.

(** *** The histogram and the percentages *)

Lemma type_steps_get0 (items : list (Z * role_counts)) (tc : gmap string Z)
    (label : string) :
  get0 (foldl type_step tc items) label
  = get0 tc label
    + Z.of_nat (length (filter (λ item : Z * role_counts, bond_type item.2 = label) items)).
Proof.
  revert tc. induction items as [|item items IH]; intros tc.
  - simpl. lia.
  - cbn [foldl]. rewrite IH. unfold type_step. rewrite get0_incr, filter_cons.
    destruct (decide (bond_type item.2 = label)); simpl; lia.
Qed.

Lemma type_steps_positive (items : list (Z * role_counts)) (tc : gmap string Z) :
  (∀ k v, tc !! k = Some v → 1 ≤ v) →
  ∀ k v, foldl type_step tc items !! k = Some v → 1 ≤ v.
Proof.
  revert tc. induction items as [|item items IH]; intros tc Htc; [exact Htc|].
  cbn [foldl]. apply IH. intros k v. unfold type_step, incr.
  destruct (decide (bond_type item.2 = k)) as [Heq|Hne].
  - rewrite Heq, lookup_insert_eq. intros [= <-].
    destruct (tc !! k) as [w|] eqn:Hw; simpl; [|lia].
    apply Htc in Hw. lia.
  - rewrite lookup_insert_ne by done. apply Htc.
Qed.

Lemma histogram_lookup (obc : gmap Z role_counts) (label : string) (count : Z) :
  foldl type_step ∅ (map_to_list obc) !! label = Some count →
  count = Z.of_nat (length (filter (λ item : Z * role_counts, bond_type item.2 = label)
                              (map_to_list obc)))
  ∧ 1 ≤ count ≤ Z.of_nat (size obc).
Proof.
  intros Hl.
  pose proof (type_steps_get0 (map_to_list obc) ∅ label) as Hg.
  rewrite get0_empty in Hg. unfold get0 in Hg. rewrite Hl in Hg. simpl in Hg.
  split; [lia|]. split.
  - eapply type_steps_positive; [|exact Hl]. intros k v. by rewrite lookup_empty.
  - rewrite Hg, <- length_map_to_list.
    pose proof (length_filter (λ item : Z * role_counts, bond_type item.2 = label)
                  (map_to_list obc)). lia.
Qed.

(** [type_counts] is the histogram of the role-count pairs: the entry
    of the label of a pair is the number of oxygens that have exactly
    this pair, a pair that no oxygen has is not a key, and every key is
    the label of the pair of some oxygen. *)
Theorem analyze_bond_counts_histogram (hbonds : list hbond) :
  ∃ obc tc pct,
    analyze_bond_counts hbonds = Ok (obc, tc, pct)
    ∧ (∀ counts,
         tc !! bond_type counts
         = if decide (oxygens_with counts obc = 0) then None
           else Some (oxygens_with counts obc))
    ∧ (∀ label, label ∈ dom tc →
         ∃ o counts, obc !! o = Some counts ∧ label = bond_type counts).
Proof.
  destruct (analyze_bond_counts_roles hbonds) as (obc & Heq & _ & _).
  eexists obc, _, _. split; [exact Heq|]. split.
  - intros counts.
    assert (Hsame : oxygens_with counts obc
                    = Z.of_nat (length (filter (λ item : Z * role_counts,
                                                  bond_type item.2 = bond_type counts)
                                          (map_to_list obc)))).
    { unfold oxygens_with. f_equal. f_equal. apply list_filter_iff.
      intros item. split; [by intros -> | apply bond_type_eq_inv]. }
    destruct (foldl type_step ∅ (map_to_list obc) !! bond_type counts) as [v|] eqn:Hl.
    + apply histogram_lookup in Hl as [Hv Hpos]. rewrite Hsame, <- Hv.
      rewrite decide_False by lia. done.
    + pose proof (type_steps_get0 (map_to_list obc) ∅ (bond_type counts)) as Hg.
      rewrite get0_empty in Hg. unfold get0 in Hg. rewrite Hl in Hg. simpl in Hg.
      rewrite decide_True by lia. done.
  - intros label [v Hl]%elem_of_dom.
    apply histogram_lookup in Hl as [Hv Hpos].
    destruct (filter (λ item : Z * role_counts, bond_type item.2 = label)
                (map_to_list obc)) as [|[o counts] rest] eqn:Hf; [simpl in Hv; lia|].
    assert (Hin : (o, counts) ∈ filter (λ item : Z * role_counts, bond_type item.2 = label)
                                  (map_to_list obc)) by (rewrite Hf; left).
    apply list_elem_of_filter in Hin as [Hlabel Hin]. apply elem_of_map_to_list in Hin.
    by exists o, counts.
Qed.

(** [percentages] has the keys of [type_counts]; the entry of a label
    is [count / total * 100] for its count and the number of oxygens of
    [oxygen_bond_counts], a value above 0 and at most 100. *)
Theorem analyze_bond_counts_percentages (hbonds : list hbond) :
  ∃ obc tc pct,
    analyze_bond_counts hbonds = Ok (obc, tc, pct)
    ∧ dom pct = dom tc
    ∧ ∀ label count,
        tc !! label = Some count →
        1 ≤ count ≤ Z.of_nat (size obc)
        ∧ pct !! label
          = Some (inject_Z count / inject_Z (Z.of_nat (size obc)) * inject_Z 100)%Q
        ∧ (0 < inject_Z count / inject_Z (Z.of_nat (size obc)) * inject_Z 100 <= 100)%Q.
Proof.
  destruct (analyze_bond_counts_roles hbonds) as (obc & Heq & _ & _).
  eexists obc, _, _. split; [exact Heq|]. split; [apply dom_fmap_L|].
  intros label count Hl. pose proof (histogram_lookup obc label count Hl) as [_ Hc].
  split; [exact Hc|]. split.
  - rewrite lookup_fmap, Hl. reflexivity.
  - assert (Hn : (0 < inject_Z (Z.of_nat (size obc)))%Q).
    { replace 0%Q with (inject_Z 0) by reflexivity. rewrite <- Zlt_Qlt. lia. }
    split.
    + apply Qmult_lt_0_compat; [|reflexivity].
      apply Qlt_shift_div_l; [exact Hn|]. rewrite Qmult_0_l.
      replace 0%Q with (inject_Z 0) by reflexivity. rewrite <- Zlt_Qlt. lia.
    + replace 100%Q with (1 * inject_Z 100)%Q by reflexivity.
      apply Qmult_le_compat_r; [|discriminate].
      apply Qle_shift_div_r; [exact Hn|]. rewrite Qmult_1_l, <- Zle_Qle. lia.
Qed.

(** ** How the statistics and the classifier fit together *)

(** For a non-empty bond list the average is the mean, over the oxygens
    of [oxygen_bond_counts], of the number of bonds an oxygen takes part
    in (accepting plus donating): both functions use the same set of
    oxygens, and every bond has two ends. *)
Theorem average_is_mean_of_roles (hbonds : list hbond) :
  hbonds ≠ [] →
  ∃ obc tc pct,
    analyze_bond_counts hbonds = Ok (obc, tc, pct)
    ∧ calculate_average_hbonds hbonds
      = Ok (PyFloat (inject_Z (sum_values (accepting <$> obc)
                               + sum_values (donating <$> obc))
                     / inject_Z (Z.of_nat (size obc)))%Q).
Proof.
  intros Hne.
  destruct (analyze_bond_counts_roles hbonds) as (obc & Heq & Hdom & Hobc).
  eexists obc, _, _. split; [exact Heq|].
  rewrite calculate_average_hbonds_nonempty by done.
  rewrite <- Hdom, size_dom.
  rewrite (sum_values_counts (λ b, b.1.1) hbonds (accepting <$> obc)).
  - rewrite (sum_values_counts (λ b, b.1.2) hbonds (donating <$> obc)).
    + replace (Z.of_nat (length hbonds) + Z.of_nat (length hbonds))
        with (2 * Z.of_nat (length hbonds)) by lia.
      reflexivity.
    + intros o. rewrite get0_fmap_roles, Hobc. destruct (decide _) as [Hin|Hnin]; [done|].
      simpl. by destruct (roles_of_stranger o hbonds Hnin) as [_ <-].
  - intros o. rewrite get0_fmap_roles, Hobc. destruct (decide _) as [Hin|Hnin]; [done|].
    simpl. by destruct (roles_of_stranger o hbonds Hnin) as [<- _].
Qed.

Lemma average_is_mean_of_roles_witness :
  ∃ obc tc pct,
    analyze_bond_counts three_bonds = Ok (obc, tc, pct)
    ∧ calculate_average_hbonds three_bonds
      = Ok (PyFloat (inject_Z (sum_values (accepting <$> obc)
                               + sum_values (donating <$> obc))
                     / inject_Z (Z.of_nat (size obc)))%Q).
Proof. apply (average_is_mean_of_roles three_bonds). discriminate. Defined.

Lemma accepted_by_pairs (o : Z) (hbonds : list hbond) :
  accepted_by o hbonds = Z.of_nat (length (filter (λ p : Z * Z, p.1 = o) hbonds.*1)).
Proof.
  unfold accepted_by. f_equal.
  induction hbonds as [|b hbonds IH]; [done|].
  rewrite fmap_cons, !filter_cons. destruct (decide (b.1.1 = o)); simpl; by rewrite IH.
Qed.

Lemma donated_by_pairs (o : Z) (hbonds : list hbond) :
  donated_by o hbonds = Z.of_nat (length (filter (λ p : Z * Z, p.2 = o) hbonds.*1)).
Proof.
  unfold donated_by. f_equal.
  induction hbonds as [|b hbonds IH]; [done|].
  rewrite fmap_cons, !filter_cons. destruct (decide (b.1.2 = o)); simpl; by rewrite IH.
Qed.

Lemma roles_permutation (hbonds hbonds' : list hbond) (o : Z) :
  hbonds.*1 ≡ₚ hbonds'.*1 →
  accepted_by o hbonds = accepted_by o hbonds'
  ∧ donated_by o hbonds = donated_by o hbonds'.
Proof.
  intros Hp. rewrite !accepted_by_pairs, !donated_by_pairs. by rewrite Hp.
Qed.

Lemma participating_permutation (hbonds hbonds' : list hbond) :
  hbonds.*1 ≡ₚ hbonds'.*1 →
  participating_oxygens hbonds = participating_oxygens hbonds'.
Proof.
  intros Hp. apply set_eq. intros o.
  assert (Hpairs : ∀ l : list hbond,
            o ∈ participating_oxygens l ↔ ∃ p, p ∈ l.*1 ∧ (p.1 = o ∨ p.2 = o)).
  { intros l. rewrite elem_of_participating_oxygens. split.
    - intros (b & Hb & Ho). exists b.1. split; [|done].
      apply list_elem_of_fmap. by exists b.
    - intros (p & Hp' & Ho). apply list_elem_of_fmap in Hp' as (b & -> & Hb).
      by exists b. }
  rewrite !Hpairs. by setoid_rewrite Hp.
Qed.

(** The statistics and the classifier depend only on which (acceptor,
    donor) pairs occur and how often: reordering the bonds or changing
    their hydrogen indices changes none of their results. *)
Theorem statistics_order_insensitive (hbonds hbonds' : list hbond) :
  hbonds.*1 ≡ₚ hbonds'.*1 →
  calculate_average_hbonds hbonds = calculate_average_hbonds hbonds'
  ∧ analyze_bond_counts hbonds = analyze_bond_counts hbonds'.
Proof.
  intros Hp.
  assert (Hlen : length hbonds = length hbonds').
  { apply Permutation_length in Hp. by rewrite !length_fmap in Hp. }
  pose proof (participating_permutation hbonds hbonds' Hp) as Hpart.
  split.
  - destruct hbonds as [|b hbonds], hbonds' as [|b' hbonds']; try discriminate; [done|].
    rewrite !calculate_average_hbonds_nonempty by done. by rewrite Hlen, Hpart.
  - destruct (analyze_bond_counts_roles hbonds) as (obc & -> & _ & Hobc).
    destruct (analyze_bond_counts_roles hbonds') as (obc' & -> & _ & Hobc').
    assert (obc = obc') as ->; [|done].
    apply map_eq. intros o. rewrite Hobc, Hobc', Hpart.
    by destruct (roles_permutation hbonds hbonds' o Hp) as [-> ->].
Qed.

Lemma statistics_order_insensitive_witness :
  calculate_average_hbonds three_bonds
  = calculate_average_hbonds [(6, 3, 4); (3, 0, 2); (0, 3, 5)]
  ∧ analyze_bond_counts three_bonds
    = analyze_bond_counts [(6, 3, 4); (3, 0, 2); (0, 3, 5)].
Proof.
  apply (statistics_order_insensitive three_bonds [(6, 3, 4); (3, 0, 2); (0, 3, 5)]).
  unfold three_bonds. cbn [fmap list_fmap fst].
  change ([(3, 0); (0, 3); (6, 3)] ≡ₚ [(6, 3)] ++ [(3, 0); (0, 3)]).
  apply (Permutation_app_comm [(3, 0); (0, 3)] [(6, 3)]).
Defined.

(** ** [main]: the keys of the role table *)

Lemma built_bond_oxygens (atoms : Atoms) (n : nat)
    (distance_cutoff angle_cutoff : pyfloat) (b : hbond) :
  b ∈ find_hydrogen_bonds atoms (water_at <$> seq 0 n) distance_cutoff angle_cutoff →
  (b.1.1 `mod` 3 = 0 ∧ 0 ≤ b.1.1 < 3 * Z.of_nat n)
  ∧ (b.1.2 `mod` 3 = 0 ∧ 0 ≤ b.1.2 < 3 * Z.of_nat n).
Proof.
  intros Hin.
  apply elem_of_find_hydrogen_bonds in Hin as (i & j & donor & acceptor & Hi & Hj & Hin).
  apply elem_of_emitted_by_pair in Hin as (_ & _ & h & _ & _ & ->).
  apply list_lookup_fmap_Some in Hi as (i' & -> & Hi).
  apply list_lookup_fmap_Some in Hj as (j' & -> & Hj).
  apply lookup_seq in Hi as [-> Hi]. apply lookup_seq in Hj as [-> Hj].
  cbn [O H water_at Nat.add fst snd].
  rewrite !(Z.mul_comm 3), !Z_mod_mult. lia.
Qed.

(** In a record returned by [main], every key of [oxygen_bond_counts] is
    the oxygen of a molecule of the input (a multiple of 3 below
    [3 * (N // 3)]), and its two counts are non-negative and not both
    zero. *)
Theorem main_role_table_keys (atoms : Atoms) (r : analysis) (o : Z) (counts : role_counts) :
  main atoms = Ok r →
  oxygen_bond_counts r !! o = Some counts →
  o `mod` 3 = 0 ∧ 0 ≤ o < 3 * Z.of_nat (len atoms / 3)
  ∧ 0 ≤ accepting counts ∧ 0 ≤ donating counts
  ∧ 1 ≤ accepting counts + donating counts.
Proof.
  intros Hmain Hkey.
  destruct (triplets_decide atoms (len atoms / 3)) as [Hok | Hbad]; cycle 1.
  { rewrite (main_aborts atoms _ (build_water_molecules_bad atoms Hbad)) in Hmain.
    discriminate. }
  pose proof (build_water_molecules_ok atoms Hok) as Hb.
  destruct (main_after_build atoms _ Hb) as (avg & obc & tc & pct & _ & Han & Hm).
  rewrite Hm in Hmain. injection Hmain as <-. cbn [oxygen_bond_counts] in Hkey.
  destruct (analyze_bond_counts_roles
              (find_hydrogen_bonds_default atoms (water_at <$> seq 0 (len atoms / 3))))
    as (obc' & Han' & _ & Hobc).
  rewrite Han in Han'. injection Han' as <- _ _.
  rewrite Hobc in Hkey. destruct (decide _) as [Hin|]; [|discriminate].
  injection Hkey as <-. cbn [accepting donating].
  pose proof (roles_of_participant _ _ Hin) as (Ha & Hd & Hsum).
  apply elem_of_participating_oxygens in Hin as (b & Hb' & Ho).
  apply built_bond_oxygens in Hb' as [[Hm1 Hr1] [Hm2 Hr2]].
  destruct Ho as [<- | <-]; repeat split; first [lia | assumption].
Qed.

Lemma main_role_table_keys_witness :
  3 `mod` 3 = 0 ∧ 0 ≤ 3 < 3 * Z.of_nat (len chain / 3)
  ∧ 0 ≤ 1 ∧ 0 ≤ 0 ∧ 1 ≤ 1 + 0.
Proof.
  apply (main_role_table_keys chain
           {| average_hbonds := PyFloat (2 # 2);
              oxygen_bond_counts :=
                {[ 0 := {| accepting := 0; donating := 1 |};
                   3 := {| accepting := 1; donating := 0 |} ]};
              type_counts := {[ "A0D1"%string := 1; "A1D0"%string := 1 ]};
              percentages := {[ "A0D1"%string := (100 # 2)%Q; "A1D0"%string := (100 # 2)%Q ]} |}
           3 {| accepting := 1; donating := 0 |}).
  - vm_compute. reflexivity.
  - vm_compute. reflexivity.
Defined.

(** ** The detector on a built list: the output is sorted *)

Lemma StronglySorted_bind_enumerate {A B : Type} (R : relation B)
    (f : nat * A → list B) (l : list A) (start : nat) :
  (∀ i x j y, (i, x) ∈ enumerate_from start l → (j, y) ∈ enumerate_from start l →
              (i < j)%nat → ∀ a b, a ∈ f (i, x) → b ∈ f (j, y) → R a b) →
  (∀ i x, (i, x) ∈ enumerate_from start l → StronglySorted R (f (i, x))) →
  StronglySorted R (enumerate_from start l ≫= f).
Proof.
  revert start. induction l as [|x l IH]; intros start Hcross Hin; [constructor|].
  cbn [enumerate_from]. rewrite bind_cons. apply StronglySorted_app_2.
  - intros a b Ha Hb. apply list_elem_of_bind in Hb as ([j y] & Hb & Hj).
    apply (Hcross start x j y); [by left | by right | | done | done].
    apply elem_of_enumerate_from in Hj as [Hle _]. lia.
  - apply Hin. by left.
  - apply IH.
    + intros i x' j y Hi Hj. apply Hcross; by right.
    + intros i x' Hi. apply Hin. by right.
Qed.

Lemma elem_of_enumerate_built (n i : nat) (m : water) :
  (i, m) ∈ enumerate (water_at <$> seq 0 n) → m = water_at i.
Proof.
  intros Hin%elem_of_enumerate.
  apply list_lookup_fmap_Some in Hin as (i' & -> & Hi).
  by apply lookup_seq in Hi as [-> _].
Qed.

Lemma emitted_by_pair_sorted (atoms : Atoms) (distance_cutoff angle_cutoff : pyfloat)
    (i j : nat) (acceptor : water) :
  StronglySorted bond_before
    (emitted_by_pair atoms distance_cutoff angle_cutoff i (water_at i) j acceptor).
Proof.
  unfold emitted_by_pair. destruct (decide (i = j)); [constructor|].
  destruct (flt _ distance_cutoff); [|constructor].
  cbn [H O water_at]. rewrite !filter_cons, filter_nil.
  repeat case_decide; cbn [fmap list_fmap].
  - apply SSorted_cons; [apply SSorted_cons; [apply SSorted_nil | apply Forall_nil_2]|].
    apply Forall_cons_2; [|apply Forall_nil_2].
    unfold bond_before. cbn [fst snd]. lia.
  - apply SSorted_cons; [apply SSorted_nil | apply Forall_nil_2].
  - apply SSorted_cons; [apply SSorted_nil | apply Forall_nil_2].
  - apply SSorted_nil.
Qed.

(** On a built list the bonds come out strictly sorted by donor oxygen,
    then acceptor oxygen, then hydrogen index. *)
Theorem built_bonds_sorted (atoms : Atoms) (water_mols : list water)
    (distance_cutoff angle_cutoff : pyfloat) :
  build_water_molecules atoms = Ok water_mols →
  StronglySorted bond_before
    (find_hydrogen_bonds atoms water_mols distance_cutoff angle_cutoff).
Proof.
  intros Hb. apply build_water_molecules_Ok_inv in Hb as ->.
  rewrite find_hydrogen_bonds_by_pairs. unfold bonds_in_iteration_order, enumerate at 1.
  apply StronglySorted_bind_enumerate.
  - intros i d i' d' Hi Hi' Hlt a b Ha Hb.
    apply elem_of_enumerate_built in Hi as ->. apply elem_of_enumerate_built in Hi' as ->.
    apply list_elem_of_bind in Ha as ([j x] & Ha & _).
    apply list_elem_of_bind in Hb as ([j' x'] & Hb & _).
    apply elem_of_emitted_by_pair in Ha as (_ & _ & h & _ & _ & ->).
    apply elem_of_emitted_by_pair in Hb as (_ & _ & h' & _ & _ & ->).
    left. cbn [fst snd O water_at]. lia.
  - intros i d Hi. apply elem_of_enumerate_built in Hi as ->.
    unfold enumerate. apply StronglySorted_bind_enumerate.
    + intros j x j' x' Hj Hj' Hlt a b Ha Hb.
      apply elem_of_enumerate_built in Hj as ->. apply elem_of_enumerate_built in Hj' as ->.
      apply elem_of_emitted_by_pair in Ha as (_ & _ & h & _ & _ & ->).
      apply elem_of_emitted_by_pair in Hb as (_ & _ & h' & _ & _ & ->).
      right. split; [done|]. left. cbn [fst snd O water_at]. lia.
    + intros j x _. apply emitted_by_pair_sorted.
Qed.

Lemma built_bonds_sorted_witness :
  StronglySorted bond_before
    (find_hydrogen_bonds chain chain_mols default_distance_cutoff default_angle_cutoff).
Proof.
  apply (built_bonds_sorted chain chain_mols). vm_compute. reflexivity.
Defined.

(** ** The detector: what it reads *)

Lemma filter_ext_elem {A : Type} (P Q : A → Prop)
    `{∀ x, Decision (P x)} `{∀ x, Decision (Q x)} (l : list A) :
  (∀ x, x ∈ l → (P x ↔ Q x)) → filter P l = filter Q l.
Proof.
  induction l as [|x l IH]; intros Hext; [done|].
  rewrite !filter_cons.
  assert (Hx : P x ↔ Q x) by (apply Hext; left).
  rewrite IH by (intros y Hy; apply Hext; by right).
  destruct (decide (P x)) as [HP|HnP].
  - by rewrite decide_True by by apply Hx.
  - by rewrite decide_False by (by rewrite <- Hx).
Qed.

(** The detector reads nothing but the minimum-image distance between
    the oxygens of two listed molecules and the minimum-image angle at a
    donor oxygen between an acceptor oxygen and one of the donor's
    hydrogens: two [Atoms] objects that agree on these give the same
    bonds, whatever their atom counts and plain distances are. *)
Theorem find_hydrogen_bonds_reads (atoms atoms' : Atoms) (water_mols : list water)
    (distance_cutoff angle_cutoff : pyfloat) :
  (∀ donor acceptor, donor ∈ water_mols → acceptor ∈ water_mols →
     get_distance atoms (O donor) (O acceptor) true
     = get_distance atoms' (O donor) (O acceptor) true) →
  (∀ donor acceptor h, donor ∈ water_mols → acceptor ∈ water_mols → h ∈ H donor →
     get_angle atoms (O acceptor) (O donor) h true
     = get_angle atoms' (O acceptor) (O donor) h true) →
  find_hydrogen_bonds atoms water_mols distance_cutoff angle_cutoff
  = find_hydrogen_bonds atoms' water_mols distance_cutoff angle_cutoff.
Proof.
  intros Hdist Hangle. rewrite !find_hydrogen_bonds_by_pairs.
  unfold bonds_in_iteration_order.
  apply Forall_bind_ext, Forall_forall. intros [i donor] Hi.
  apply Forall_bind_ext, Forall_forall. intros [j acceptor] Hj.
  apply elem_of_enumerate, list_elem_of_lookup_2 in Hi, Hj.
  unfold emitted_by_pair. destruct (decide (i = j)); [done|].
  rewrite (Hdist donor acceptor Hi Hj).
  destruct (flt _ distance_cutoff); [|done].
  f_equal. apply filter_ext_elem. intros h Hh.
  by rewrite (Hangle donor acceptor h Hi Hj Hh).
Qed.

Lemma find_hydrogen_bonds_reads_witness :
  find_hydrogen_bonds chain chain_mols default_distance_cutoff default_angle_cutoff
  = find_hydrogen_bonds chain_mic_only chain_mols
      default_distance_cutoff default_angle_cutoff.
Proof.
  apply (find_hydrogen_bonds_reads chain chain_mic_only chain_mols); reflexivity.
Defined.

(** ** The statistics: upper bounds *)

(** For a non-empty bond list the average is at most twice the number
    of bonds, and at most the number of bonds as soon as one bond joins
    two different oxygens (as every bond of the detector does). *)
Theorem calculate_average_hbonds_upper (hbonds : list hbond) :
  hbonds ≠ [] →
  ∃ avg_hbonds,
    calculate_average_hbonds hbonds = Ok (PyFloat avg_hbonds)
    ∧ (avg_hbonds <= inject_Z (2 * Z.of_nat (length hbonds)))%Q
    ∧ ((∃ b, b ∈ hbonds ∧ b.1.1 ≠ b.1.2) →
       (avg_hbonds <= inject_Z (Z.of_nat (length hbonds)))%Q).
Proof.
  intros Hne. pose proof (participating_oxygens_bounds hbonds Hne) as [Hpos _].
  rewrite calculate_average_hbonds_nonempty by done. eexists. split; [reflexivity|].
  assert (Hk : (0 < inject_Z (Z.of_nat (size (participating_oxygens hbonds))))%Q).
  { replace 0%Q with (inject_Z 0) by reflexivity. rewrite <- Zlt_Qlt. lia. }
  split.
  - apply Qle_shift_div_r; [exact Hk|].
    rewrite <- inject_Z_mult, <- Zle_Qle. nia.
  - intros (b & Hb & Hdiff).
    assert (Htwo : (2 ≤ size (participating_oxygens hbonds))%nat).
    { assert (Hsub : ({[ b.1.1; b.1.2 ]} : gset Z) ⊆ participating_oxygens hbonds).
      { intros o Ho. apply elem_of_participating_oxygens. exists b. set_solver. }
      apply subseteq_size in Hsub.
      rewrite size_union, !size_singleton in Hsub by set_solver. exact Hsub. }
    apply Qle_shift_div_r; [exact Hk|].
    rewrite <- inject_Z_mult, <- Zle_Qle. nia.
Qed.

Lemma calculate_average_hbonds_upper_witness :
  ∃ avg_hbonds,
    calculate_average_hbonds three_bonds = Ok (PyFloat avg_hbonds)
    ∧ (avg_hbonds <= inject_Z (2 * Z.of_nat (length three_bonds)))%Q
    ∧ ((∃ b, b ∈ three_bonds ∧ b.1.1 ≠ b.1.2) →
       (avg_hbonds <= inject_Z (Z.of_nat (length three_bonds)))%Q).
Proof. apply (calculate_average_hbonds_upper three_bonds). discriminate. Defined.
